(** * ImpulseCheck (main.py): a shallow embedding and its properties

    The program is a curses application: a dictionary of named goals, each a
    record with a counter and a history stack, edited through a four-state
    input machine and written to a JSON file after every change.

    Layout of this file:
    - [Py]    the fragment of Python's object model the program relies on
              (JSON-shaped values, insertion-ordered dictionaries, exceptions);
    - [Json]  [json.dump] / [json.load] with the default options;
    - [App]   [ImpulseControlApp]: its attributes, the handlers and the loop;
    - the theorems, one section per topic.

    What the embedding keeps of the outside world: the keys, the text of
    the entry field, the clock and the outcome of opening the file for
    writing are inputs (an [event] per loop iteration); the content window
    and the file are outputs.  What it leaves out: errors raised by curses
    itself (a terminal too small for a string), signals, errors while
    reading the file, floating-point numbers and characters above U+00FF
    in the file, and the two limits of the interpreter that the codec can
    meet: CPython (3.11 and later, and the security releases before it)
    raises [ValueError] rather than print or parse an integer of more than
    4300 decimal digits, and [RecursionError] on a document nested more
    deeply than its recursion limit allows.  [Json.in_range] delimits the
    values on which [Json.dumps] and [Json.loads] are what CPython
    computes; the statements about the codec are made for those values. *)

From Stdlib Require Import ZArith List String Ascii Bool Lia.
From Stdlib Require Decimal DecimalString DecimalPos DecimalZ DecimalFacts.
Import ListNotations.

Local Open Scope string_scope.
Local Open Scope list_scope.
Local Open Scope Z_scope.

Set Warnings "-register-all".

(* ================================================================== *)
(** ** Python values *)
(* ================================================================== *)

Module Py.

(** The values that can sit in [self.goals]: what [json.load] builds
    (without floats) and what the handlers store.  A [dict] keeps its
    insertion order, so it is an association list; its keys are strings,
    as they are after a JSON load and after [handle_create_goal].
    A [str] is a Rocq string: characters with code point below 256. *)
Inductive pyval : Type :=
| PNone
| PBool (b : bool)
| PInt (n : Z)
| PStr (s : string)
| PList (l : list pyval)
| PDict (d : list (string * pyval)).

Definition dict := list (string * pyval).

(** The exceptions that can cross a function boundary in main.py.
    [OutOfModel] is not a Python exception: it marks a JSON text whose
    value has no counterpart in [pyval] (a float, a character above
    U+00FF).  [RecursionError] is what the decoder of this file returns
    when the fuel of its recursion is used up; the fuel that [Json.loads]
    hands out is never used up, so the decoder of this file never returns
    it.  The recursion limit of the interpreter itself is not modelled
    (see [Json.in_range]). *)
Inductive exn : Type :=
| KeyError | TypeError | AttributeError | IndexError
| OSError | JSONDecodeError | KeyboardInterrupt | RecursionError | OutOfModel.

Definition exn_eqb (a b : exn) : bool :=
  match a, b with
  | KeyError, KeyError | TypeError, TypeError
  | AttributeError, AttributeError | IndexError, IndexError
  | OSError, OSError | JSONDecodeError, JSONDecodeError
  | KeyboardInterrupt, KeyboardInterrupt | RecursionError, RecursionError
  | OutOfModel, OutOfModel => true
  | _, _ => false
  end.

Inductive res (A : Type) : Type :=
| Ok (a : A)
| Raise (e : exn).
Arguments Ok {A} a.
Arguments Raise {A} e.

Definition rbind {A B} (r : res A) (f : A -> res B) : res B :=
  match r with Ok a => f a | Raise e => Raise e end.

(** *** Dictionaries: [k in d], [d[k]], [d[k] = v], [del d[k]] *)

Fixpoint dict_get (d : dict) (k : string) : option pyval :=
  match d with
  | [] => None
  | (k', v) :: r => if String.eqb k k' then Some v else dict_get r k
  end.

Definition dict_mem (d : dict) (k : string) : bool :=
  match dict_get d k with Some _ => true | None => false end.

(** Assignment keeps the position of an existing key and appends a new one. *)
Fixpoint dict_set (d : dict) (k : string) (v : pyval) : dict :=
  match d with
  | [] => [(k, v)]
  | (k', v') :: r =>
      if String.eqb k k' then (k', v) :: r else (k', v') :: dict_set r k v
  end.

Fixpoint dict_del (d : dict) (k : string) : dict :=
  match d with
  | [] => []
  | (k', v') :: r => if String.eqb k k' then r else (k', v') :: dict_del r k
  end.

Definition keys (d : dict) : list string := map fst d.

(** *** Truth value, [len], subscripts on an arbitrary value *)

(** [bool(v)]: what [if v:] and [not v] test. *)
Definition truthy (v : pyval) : bool :=
  match v with
  | PNone => false
  | PBool b => b
  | PInt n => negb (n =? 0)
  | PStr s => negb (String.eqb s "")
  | PList l => match l with [] => false | _ => true end
  | PDict d => match d with [] => false | _ => true end
  end.

(** [len(v)] *)
Definition py_len (v : pyval) : res Z :=
  match v with
  | PStr s => Ok (Z.of_nat (String.length s))
  | PList l => Ok (Z.of_nat (List.length l))
  | PDict d => Ok (Z.of_nat (List.length d))
  | _ => Raise TypeError
  end.

(** [list(v.keys())] *)
Definition py_keys (v : pyval) : res (list string) :=
  match v with
  | PDict d => Ok (keys d)
  | _ => Raise AttributeError
  end.

(** [l[i]] on a Python list: a negative index counts from the end. *)
Definition list_index {A} (l : list A) (i : Z) : res A :=
  let n := Z.of_nat (List.length l) in
  let j := if i <? 0 then i + n else i in
  if (j <? 0) || (n <=? j) then Raise IndexError
  else match nth_error l (Z.to_nat j) with
       | Some a => Ok a
       | None => Raise IndexError
       end.

(** [v[k]] where [k] is [None] or a [str].  A dictionary raises [KeyError]
    on a missing key ([None] is never a key here); a list or a string wants
    an integer index, and the other values are not subscriptable. *)
Definition getitem (v : pyval) (k : option string) : res pyval :=
  match v with
  | PDict d =>
      match k with
      | Some k => match dict_get d k with
                  | Some x => Ok x
                  | None => Raise KeyError
                  end
      | None => Raise KeyError
      end
  | _ => Raise TypeError
  end.

(** [v[k] = x] for a [str] key. *)
Definition setitem (v : pyval) (k : string) (x : pyval) : res pyval :=
  match v with
  | PDict d => Ok (PDict (dict_set d k x))
  | _ => Raise TypeError
  end.

(** [del v[k]] where [k] is [None] or a [str]. *)
Definition delitem (v : pyval) (k : option string) : res pyval :=
  match v with
  | PDict d =>
      match k with
      | Some k => if dict_mem d k then Ok (PDict (dict_del d k))
                  else Raise KeyError
      | None => Raise KeyError
      end
  | _ => Raise TypeError
  end.

(** Equality of two values as [==] decides it between a [str] and an
    element of a list: only another equal [str] compares equal. *)
Definition eq_str (k : string) (v : pyval) : bool :=
  match v with PStr s => String.eqb k s | _ => false end.

(** [sub in s] on strings: substring test. *)
Fixpoint is_substring (sub s : string) : bool :=
  if String.prefix sub s then true
  else match s with
       | EmptyString => false
       | String _ r => is_substring sub r
       end.

(** [k in v] for a [str] [k]. *)
Definition contains (v : pyval) (k : string) : res bool :=
  match v with
  | PDict d => Ok (dict_mem d k)
  | PList l => Ok (existsb (eq_str k) l)
  | PStr s => Ok (is_substring k s)
  | _ => Raise TypeError
  end.

(** [v.get(k, default)] *)
Definition py_get (v : pyval) (k : string) (default : pyval) : res pyval :=
  match v with
  | PDict d => Ok (match dict_get d k with Some x => x | None => default end)
  | _ => Raise AttributeError
  end.

(** [v.pop()]: the popped element and what is left of [v]. *)
Definition py_pop (v : pyval) : res (pyval * pyval) :=
  match v with
  | PList l =>
      match rev l with
      | [] => Raise IndexError
      | x :: r => Ok (x, PList (rev r))
      end
  | PDict _ => Raise TypeError
  | _ => Raise AttributeError
  end.

(** [v + 1], as [v += 1] computes it ([bool] is a subclass of [int]). *)
Definition py_add1 (v : pyval) : res pyval :=
  match v with
  | PInt n => Ok (PInt (n + 1))
  | PBool b => Ok (PInt ((if b then 1 else 0) + 1))
  | _ => Raise TypeError
  end.

(** *** Strings: [s.strip()], [c in s] *)

(** [str.isspace] on one character below U+0100. *)
Definition is_space (c : ascii) : bool :=
  let n := nat_of_ascii c in
  ((9 <=? n) && (n <=? 13) || (28 <=? n) && (n <=? 32)
   || (n =? 133) || (n =? 160))%nat.

Fixpoint lstrip (s : string) : string :=
  match s with
  | String c r => if is_space c then lstrip r else s
  | EmptyString => EmptyString
  end.

Fixpoint rstrip (s : string) : string :=
  match s with
  | String c r =>
      match rstrip r with
      | EmptyString => if is_space c then EmptyString else String c EmptyString
      | r' => String c r'
      end
  | EmptyString => EmptyString
  end.

Definition strip (s : string) : string := rstrip (lstrip s).

Fixpoint has_char (c : ascii) (s : string) : bool :=
  match s with
  | EmptyString => false
  | String c' r => Ascii.eqb c c' || has_char c r
  end.

End Py.

(* ================================================================== *)
(** ** json.dump and json.load *)
(* ================================================================== *)

Module Json.
Import Py.
Local Open Scope string_scope.

Definition dquote : ascii := "034"%char.
Definition backslash : ascii := "092"%char.

(** *** Encoder: [json.dumps(v)] with [ensure_ascii=True] and the default
    separators [", "] and [": "]. *)

Definition hex_digit (n : nat) : ascii :=
  nth n (list_ascii_of_string "0123456789abcdef") "0"%char.

(** One character inside a string literal: the two-character escapes,
    the printable ASCII range as it is, [\u00xx] for the rest. *)
Definition escape_char (c : ascii) : string :=
  let n := nat_of_ascii c in
  if Ascii.eqb c dquote then String backslash (String dquote "")
  else if Ascii.eqb c backslash then String backslash (String backslash "")
  else if (n =? 10)%nat then String backslash "n"
  else if (n =? 13)%nat then String backslash "r"
  else if (n =? 9)%nat then String backslash "t"
  else if (n =? 8)%nat then String backslash "b"
  else if (n =? 12)%nat then String backslash "f"
  else if ((32 <=? n) && (n <=? 126))%nat then String c ""
  else String backslash
         ("u00" ++ String (hex_digit (n / 16)) (String (hex_digit (n mod 16)) "")).

Fixpoint escape (s : string) : string :=
  match s with
  | EmptyString => ""
  | String c r => escape_char c ++ escape r
  end.

Definition dump_str (s : string) : string :=
  String dquote (escape s ++ String dquote "").

(** [int.__repr__]: the decimal digits, after a minus sign for a negative
    number.  CPython does this for an integer of 4300 digits at most and
    raises [ValueError] for a longer one; the limit is not modelled here
    (see [in_range] below). *)
Definition dump_int (n : Z) : string := DecimalString.NilZero.string_of_int (Z.to_int n).

Fixpoint join (sep : string) (l : list string) : string :=
  match l with
  | [] => ""
  | [x] => x
  | x :: r => x ++ sep ++ join sep r
  end.

Fixpoint dumps (v : pyval) : string :=
  match v with
  | PNone => "null"
  | PBool true => "true"
  | PBool false => "false"
  | PInt n => dump_int n
  | PStr s => dump_str s
  | PList l => "[" ++ join ", " (map dumps l) ++ "]"
  | PDict d =>
      "{" ++ join ", " (map (fun kv => dump_str (fst kv) ++ ": " ++ dumps (snd kv)) d)
          ++ "}"
  end.

(** *** The range of the codec

    [dumps] above and [loads] below are total on integers and on nesting;
    CPython is not.  With the default settings of the interpreter, an
    integer of more than [max_str_digits] decimal digits is neither printed
    by [json.dump] nor parsed by [json.load] ([ValueError], which is not a
    [JSONDecodeError]), and a document whose arrays and objects are nested
    too deeply for the recursion limit (1000 frames by default, part of
    them taken by the caller) raises [RecursionError].  A float is read by
    [json.load] and has no counterpart here ([OutOfModel]).  On a value
    that is [in_range], [dumps] is the text that [json.dump] writes and
    [loads] of that text is what [json.load] returns. *)

Definition max_str_digits : nat := 4300.

(** A depth of nesting that every interpreter with the default recursion
    limit decodes. *)
Definition max_nesting : nat := 100.

(** The number of decimal digits of [n]. *)
Definition digits (n : Z) : nat := String.length (dump_int (Z.abs n)).

Definition int_in_range (n : Z) : bool := (digits n <=? max_str_digits)%nat.

Fixpoint ints_in_range (v : pyval) : bool :=
  match v with
  | PInt n => int_in_range n
  | PList l => forallb ints_in_range l
  | PDict d => forallb (fun kv => ints_in_range (snd kv)) d
  | _ => true
  end.

(** The number of arrays and objects around the innermost value. *)
Fixpoint depth (v : pyval) : nat :=
  match v with
  | PList l => S (fold_right Nat.max 0%nat (map depth l))
  | PDict d => S (fold_right Nat.max 0%nat (map (fun kv => depth (snd kv)) d))
  | _ => 0%nat
  end.

Definition in_range (v : pyval) : bool :=
  ints_in_range v && (depth v <=? max_nesting)%nat.

(** *** Decoder: [json.loads(text)] *)

(** The decoder's whitespace: space, tab, line feed, carriage return. *)
Definition is_ws (c : ascii) : bool :=
  let n := nat_of_ascii c in
  ((n =? 32) || (n =? 9) || (n =? 10) || (n =? 13))%nat.

Fixpoint skip_ws (s : string) : string :=
  match s with
  | String c r => if is_ws c then skip_ws r else s
  | EmptyString => EmptyString
  end.

Definition hex_val (c : ascii) : option nat :=
  let n := nat_of_ascii c in
  if ((48 <=? n) && (n <=? 57))%nat then Some (n - 48)%nat
  else if ((97 <=? n) && (n <=? 102))%nat then Some (n - 87)%nat
  else if ((65 <=? n) && (n <=? 70))%nat then Some (n - 55)%nat
  else None.

(** The four hexadecimal digits of a [\u] escape. *)
Definition decode_uXXXX (a b c d : ascii) : res ascii :=
  match hex_val a, hex_val b, hex_val c, hex_val d with
  | Some x3, Some x2, Some x1, Some x0 =>
      if ((x3 =? 0) && (x2 =? 0))%nat then Ok (ascii_of_nat (x1 * 16 + x0))
      else Raise OutOfModel
  | _, _, _, _ => Raise JSONDecodeError
  end.

(** The character a two-character escape stands for. *)
Definition unescape (e : ascii) : option ascii :=
  if Ascii.eqb e dquote then Some dquote
  else if Ascii.eqb e backslash then Some backslash
  else if Ascii.eqb e "/" then Some "/"%char
  else if Ascii.eqb e "b" then Some "008"%char
  else if Ascii.eqb e "f" then Some "012"%char
  else if Ascii.eqb e "n" then Some "010"%char
  else if Ascii.eqb e "r" then Some "013"%char
  else if Ascii.eqb e "t" then Some "009"%char
  else None.

(** [scanstring]: the text after an opening quote, up to the closing one
    (strict mode: a raw control character is an error). *)
Fixpoint scanstring (s : string) : res (string * string) :=
  match s with
  | EmptyString => Raise JSONDecodeError
  | String c r =>
      if Ascii.eqb c dquote then Ok ("", r)
      else if Ascii.eqb c backslash then
        match r with
        | EmptyString => Raise JSONDecodeError
        | String e r1 =>
            if Ascii.eqb e "u" then
              match r1 with
              | String h3 (String h2 (String h1 (String h0 r2))) =>
                  rbind (decode_uXXXX h3 h2 h1 h0) (fun ch =>
                  rbind (scanstring r2) (fun p =>
                  Ok (String ch (fst p), snd p)))
              | _ => Raise JSONDecodeError
              end
            else
              match unescape e with
              | Some ch =>
                  rbind (scanstring r1) (fun p => Ok (String ch (fst p), snd p))
              | None => Raise JSONDecodeError
              end
        end
      else if (nat_of_ascii c <? 32)%nat then Raise JSONDecodeError
      else rbind (scanstring r) (fun p => Ok (String c (fst p), snd p))
  end.

(** Numbers.  The scanner's pattern is an optional minus sign, then
    either a single 0 or a non-zero digit followed by digits, then an
    optional fraction (a dot and at least one digit), then an optional
    exponent (e or E, an optional sign, at least one digit); a match with
    a fraction or an exponent is a float, which [json.load] returns and
    this model cannot hold: [OutOfModel] marks a text on which the model
    says nothing. *)

Definition digit_of (c : ascii) : option (Decimal.uint -> Decimal.uint) :=
  match c with
  | "0"%char => Some Decimal.D0 | "1"%char => Some Decimal.D1
  | "2"%char => Some Decimal.D2 | "3"%char => Some Decimal.D3
  | "4"%char => Some Decimal.D4 | "5"%char => Some Decimal.D5
  | "6"%char => Some Decimal.D6 | "7"%char => Some Decimal.D7
  | "8"%char => Some Decimal.D8 | "9"%char => Some Decimal.D9
  | _ => None
  end.

Definition is_digit (c : ascii) : bool :=
  match digit_of c with Some _ => true | None => false end.

Fixpoint scan_digits (s : string) : Decimal.uint * string :=
  match s with
  | String c r =>
      match digit_of c with
      | Some dk => let p := scan_digits r in (dk (fst p), snd p)
      | None => (Decimal.Nil, s)
      end
  | EmptyString => (Decimal.Nil, EmptyString)
  end.

Definition starts_with_digit (s : string) : bool :=
  match s with String c _ => is_digit c | EmptyString => false end.

(** The integer part: a single 0, or a non-zero digit and the digits
    that follow it. *)
Definition match_integer (s : string) : option (Decimal.uint * string) :=
  match s with
  | String c r =>
      if Ascii.eqb c "0" then Some (Decimal.D0 Decimal.Nil, r)
      else if is_digit c then Some (scan_digits s)
      else None
  | EmptyString => None
  end.

(** A fraction starts here. *)
Definition has_frac (s : string) : bool :=
  match s with
  | String c r => Ascii.eqb c "." && starts_with_digit r
  | EmptyString => false
  end.

(** An exponent starts here. *)
Definition has_exp (s : string) : bool :=
  match s with
  | String c r =>
      (Ascii.eqb c "e" || Ascii.eqb c "E") &&
      match r with
      | String g r' =>
          if Ascii.eqb g "+" || Ascii.eqb g "-" then starts_with_digit r'
          else is_digit g
      | EmptyString => false
      end
  | EmptyString => false
  end.

Definition parse_number (s : string) : res (pyval * string) :=
  let (neg, s1) :=
    match s with
    | String c r => if Ascii.eqb c "-" then (true, r) else (false, s)
    | EmptyString => (false, s)
    end in
  match match_integer s1 with
  | Some (u, rest) =>
      if has_frac rest || has_exp rest then Raise OutOfModel
      else Ok (PInt (Z.of_int (if neg then Decimal.Neg u else Decimal.Pos u)), rest)
  | None =>
      if String.prefix "NaN" s || String.prefix "Infinity" s
         || String.prefix "-Infinity" s
      then Raise OutOfModel
      else Raise JSONDecodeError
  end.

Fixpoint drop (n : nat) (s : string) : string :=
  match n, s with
  | S n', String _ r => drop n' r
  | _, _ => s
  end.

Definition head_is (c : ascii) (s : string) : bool :=
  match s with
  | String c' _ => Ascii.eqb c' c
  | EmptyString => false
  end.

(** [dict(pairs)]: a repeated key keeps its first position and its last value. *)
Definition dict_of_pairs (pairs : list (string * pyval)) : dict :=
  fold_left (fun d kv => dict_set d (fst kv) (snd kv)) pairs [].

(** [scan_once], [JSONArray] and [JSONObject].  [fuel] bounds the number of
    nested calls; it makes the recursion structural and is no model of the
    interpreter's recursion limit. *)
Fixpoint parse_value (fuel : nat) (s : string) {struct fuel}
  : res (pyval * string) :=
  match fuel with
  | O => Raise RecursionError
  | S f =>
      match s with
      | EmptyString => Raise JSONDecodeError
      | String c r =>
          if Ascii.eqb c dquote then
            rbind (scanstring r) (fun p => Ok (PStr (fst p), snd p))
          else if Ascii.eqb c "{" then
            let r1 := skip_ws r in
            if head_is "}" r1 then Ok (PDict [], drop 1 r1)
            else rbind (parse_members f r1) (fun p =>
                 Ok (PDict (dict_of_pairs (fst p)), snd p))
          else if Ascii.eqb c "[" then
            let r1 := skip_ws r in
            if head_is "]" r1 then Ok (PList [], drop 1 r1)
            else rbind (parse_elems f r1) (fun p => Ok (PList (fst p), snd p))
          else if String.prefix "null" s then Ok (PNone, drop 4 s)
          else if String.prefix "true" s then Ok (PBool true, drop 4 s)
          else if String.prefix "false" s then Ok (PBool false, drop 5 s)
          else parse_number s
      end
  end

with parse_elems (fuel : nat) (s : string) {struct fuel}
  : res (list pyval * string) :=
  match fuel with
  | O => Raise RecursionError
  | S f =>
      rbind (parse_value f s) (fun p =>
      match skip_ws (snd p) with
      | String c r =>
          if Ascii.eqb c "]" then Ok ([fst p], r)
          else if Ascii.eqb c "," then
            rbind (parse_elems f (skip_ws r)) (fun q =>
            Ok (fst p :: fst q, snd q))
          else Raise JSONDecodeError
      | EmptyString => Raise JSONDecodeError
      end)
  end

with parse_members (fuel : nat) (s : string) {struct fuel}
  : res (list (string * pyval) * string) :=
  match fuel with
  | O => Raise RecursionError
  | S f =>
      match s with
      | EmptyString => Raise JSONDecodeError
      | String c r =>
          if negb (Ascii.eqb c dquote) then Raise JSONDecodeError
          else
            rbind (scanstring r) (fun kp =>
            match skip_ws (snd kp) with
            | EmptyString => Raise JSONDecodeError
            | String c1 r1 =>
                if negb (Ascii.eqb c1 ":") then Raise JSONDecodeError
                else
                  rbind (parse_value f (skip_ws r1)) (fun vp =>
                  match skip_ws (snd vp) with
                  | String c2 r2 =>
                      if Ascii.eqb c2 "}" then Ok ([(fst kp, fst vp)], r2)
                      else if Ascii.eqb c2 "," then
                        rbind (parse_members f (skip_ws r2)) (fun q =>
                        Ok ((fst kp, fst vp) :: fst q, snd q))
                      else Raise JSONDecodeError
                  | EmptyString => Raise JSONDecodeError
                  end)
            end)
      end
  end.

(** [json.loads]: one value, whitespace allowed around it, nothing after.
    The fuel is more than the decoder can use on [text], whatever the
    nesting: what CPython does beyond its recursion limit, and with an
    integer beyond [max_str_digits], is outside this definition. *)
Definition loads (text : string) : res pyval :=
  rbind (parse_value (2 * String.length text + 1) (skip_ws text)) (fun p =>
  match skip_ws (snd p) with
  | EmptyString => Ok (fst p)
  | String _ _ => Raise JSONDecodeError
  end).

End Json.

(* ================================================================== *)
(** ** ImpulseControlApp *)
(* ================================================================== *)

Module App.
Import Py.

(** [self.current_state] *)
Inductive ui_state : Type := menu | view_goal | create_goal | delete_confirm.

Definition ui_state_eqb (a b : ui_state) : bool :=
  match a, b with
  | menu, menu | view_goal, view_goal
  | create_goal, create_goal | delete_confirm, delete_confirm => true
  | _, _ => false
  end.

(** A status line.  Most of them are f-strings around one value; the value
    is kept as it is instead of being rendered with [str()]. *)
Inductive message : Type :=
| Text (s : string)
| Fmt (before : string) (v : pyval) (after : string).

Definition message_truthy (m : option message) : bool :=
  match m with
  | None => false
  | Some (Text s) => negb (String.eqb s "")
  | Some (Fmt b v a) =>
      negb (String.eqb b "" && String.eqb a ""
            && match v with PStr x => String.eqb x "" | _ => false end)
  end.

(** What a [draw_*] method puts in the content window, reduced to the data
    it reads from [self.goals]. *)
Inductive frame : Type :=
| Blank
| MenuFrame (rows : list (string * pyval)) (highlighted : Z)
| NoGoalsFrame
| GoalFrame (name : option string) (counter : pyval) (last_updated : option pyval)
| CreateFrame
| DeleteFrame (name : option string).

(** The file at [CONFIG_PATH], as decoded text. *)
Inductive file : Type :=
| Absent
| Present (text : string).

(** The attributes of the application object, followed by the two pieces of
    the outside world the methods write to: the content window and the file. *)
Record state : Type := mkState {
  goals : pyval;
  current_goal : option string;
  current_state : ui_state;
  selected_index : Z;
  textbox : bool;                 (* [self.textbox is not None] *)
  goal_to_delete : option string;
  status_message : option message;
  status_time : Z;
  is_error : bool;
  content_win : frame;
  disk : file
}.

Definition set_goals (g : pyval) (s : state) : state :=
  mkState g (current_goal s) (current_state s) (selected_index s) (textbox s)
          (goal_to_delete s) (status_message s) (status_time s) (is_error s)
          (content_win s) (disk s).
Definition set_current_goal (c : option string) (s : state) : state :=
  mkState (goals s) c (current_state s) (selected_index s) (textbox s)
          (goal_to_delete s) (status_message s) (status_time s) (is_error s)
          (content_win s) (disk s).
Definition set_current_state (u : ui_state) (s : state) : state :=
  mkState (goals s) (current_goal s) u (selected_index s) (textbox s)
          (goal_to_delete s) (status_message s) (status_time s) (is_error s)
          (content_win s) (disk s).
Definition set_selected_index (i : Z) (s : state) : state :=
  mkState (goals s) (current_goal s) (current_state s) i (textbox s)
          (goal_to_delete s) (status_message s) (status_time s) (is_error s)
          (content_win s) (disk s).
Definition set_textbox (b : bool) (s : state) : state :=
  mkState (goals s) (current_goal s) (current_state s) (selected_index s) b
          (goal_to_delete s) (status_message s) (status_time s) (is_error s)
          (content_win s) (disk s).
Definition set_goal_to_delete (c : option string) (s : state) : state :=
  mkState (goals s) (current_goal s) (current_state s) (selected_index s)
          (textbox s) c (status_message s) (status_time s) (is_error s)
          (content_win s) (disk s).
Definition set_status_fields (m : option message) (t : Z) (e : bool)
  (s : state) : state :=
  mkState (goals s) (current_goal s) (current_state s) (selected_index s)
          (textbox s) (goal_to_delete s) m t e (content_win s) (disk s).
Definition set_status_message (m : option message) (s : state) : state :=
  set_status_fields m (status_time s) (is_error s) s.
Definition set_content_win (f : frame) (s : state) : state :=
  mkState (goals s) (current_goal s) (current_state s) (selected_index s)
          (textbox s) (goal_to_delete s) (status_message s) (status_time s)
          (is_error s) f (disk s).
Definition set_disk (d : file) (s : state) : state :=
  mkState (goals s) (current_goal s) (current_state s) (selected_index s)
          (textbox s) (goal_to_delete s) (status_message s) (status_time s)
          (is_error s) (content_win s) d.

(** What the outside world hands to one iteration of the main loop. *)
Record event : Type := mkEvent {
  ev_key : Z;          (* [self.stdscr.getch()]; -1 when no key is pending *)
  ev_text : string;    (* [self.textbox.edit()] *)
  ev_now : string;     (* [datetime.now().strftime("%Y-%m-%d %H:%M:%S")] *)
  ev_clock : Z;        (* [time.time()] *)
  ev_disk_ok : bool;   (* whether [open(CONFIG_PATH, 'w')] succeeds *)
  ev_pick : nat        (* the index [random.choice] draws *)
}.

(** *** Methods as state transformers that may raise.  The state survives
    an exception, as the attributes of a Python object do. *)

Definition M (A : Type) : Type := state -> res A * state.

Definition ret {A} (a : A) : M A := fun s => (Ok a, s).
Definition bind {A B} (m : M A) (f : A -> M B) : M B :=
  fun s => match m s with
           | (Ok a, s') => f a s'
           | (Raise e, s') => (Raise e, s')
           end.
Definition raise {A} (e : exn) : M A := fun s => (Raise e, s).
Definition lift {A} (r : res A) : M A := fun s => (r, s).
Definition gets {A} (f : state -> A) : M A := fun s => (Ok (f s), s).
Definition modify (f : state -> state) : M unit := fun s => (Ok tt, f s).

(** [try: m except e: h] *)
Definition try_except {A} (m : M A) (e : exn) (h : M A) : M A :=
  fun s => match m s with
           | (Raise e', s') => if exn_eqb e e' then h s' else (Raise e', s')
           | r => r
           end.

Notation "x <- c1 ;; c2" := (bind c1 (fun x => c2))
  (at level 61, c1 at next level, right associativity).
Notation "c1 ;; c2" := (bind c1 (fun _ => c2))
  (at level 61, right associativity).

Definition ord (c : ascii) : Z := Z.of_nat (nat_of_ascii c).
Definition KEY_DOWN : Z := 258.
Definition KEY_UP : Z := 259.
Definition ESC : ascii := "027"%char.

(** [key in [a, b]] *)
Definition key_in (key : Z) (l : list Z) : bool := existsb (Z.eqb key) l.

(** *** Persistence *)

Definition load_data : M unit :=
  d <- gets disk ;;
  match d with
  | Present text =>
      try_except
        (data <- lift (Json.loads text) ;;
         g <- lift (py_get data "goals" (PDict [])) ;;
         modify (set_goals g))
        JSONDecodeError
        (modify (set_goals (PDict [])))
  | Absent => ret tt
  end ;;
  g <- gets goals ;;
  if negb (truthy g) then modify (set_current_state create_goal) else ret tt.

(** Opening the file for writing either fails, leaving the file as it was,
    or succeeds, and then the whole registry is written. *)
Definition save_data (ev : event) : M unit :=
  if ev_disk_ok ev then
    g <- gets goals ;;
    modify (set_disk (Present (Json.dumps (PDict [("goals", g)]))))
  else raise OSError.

(** *** Status line *)

Definition set_status (ev : event) (m : message) (error : bool) : M unit :=
  modify (set_status_fields (Some m) (ev_clock ev) error).

(** The key that [show_error] waits for is read and dropped. *)
Definition show_error (ev : event) (m : message) : M unit :=
  set_status ev m true.

Definition quit (ev : event) : M unit :=
  save_data ev ;; raise KeyboardInterrupt.

(** *** Menu *)

(** [list(self.goals.keys())[self.selected_index]] *)
Definition selected_key : M string :=
  g <- gets goals ;;
  ks <- lift (py_keys g) ;;
  i <- gets selected_index ;;
  lift (list_index ks i).

(** The rows of the goal list: [self.goals[goal]['counter']] for each key. *)
Fixpoint menu_rows (g : pyval) (ks : list string) : res (list (string * pyval)) :=
  match ks with
  | [] => Ok []
  | k :: r =>
      rbind (getitem g (Some k)) (fun rec =>
      rbind (getitem rec (Some "counter")) (fun c =>
      rbind (menu_rows g r) (fun rows => Ok ((k, c) :: rows))))
  end.

Definition draw_menu : M unit :=
  g <- gets goals ;;
  if truthy g then
    ks <- lift (py_keys g) ;;
    rows <- lift (menu_rows g ks) ;;
    i <- gets selected_index ;;
    modify (set_content_win (MenuFrame rows i))
  else modify (set_content_win NoGoalsFrame).

Definition handle_menu_input (ev : event) : M unit :=
  try_except
    (let key := ev_key ev in
     if key =? -1 then ret tt
     else if key =? KEY_UP then
       i <- gets selected_index ;;
       modify (set_selected_index (Z.max 0 (i - 1))) ;;
       k <- selected_key ;;
       set_status ev (Fmt "Selected: " (PStr k) "") false
     else if key =? KEY_DOWN then
       g <- gets goals ;;
       n <- lift (py_len g) ;;
       i <- gets selected_index ;;
       modify (set_selected_index (Z.min (n - 1) (i + 1))) ;;
       if truthy g then
         k <- selected_key ;;
         set_status ev (Fmt "Selected: " (PStr k) "") false
       else ret tt
     else
       g <- gets goals ;;
       if key_in key [10; 13] && truthy g then
         k <- selected_key ;;
         modify (set_current_goal (Some k)) ;;
         modify (set_current_state view_goal) ;;
         set_status ev (Fmt "Viewing goal: " (PStr k) "") false
       else if key_in key [ord "c"; ord "C"] then
         modify (set_current_state create_goal) ;;
         set_status ev (Text "Creating new goal...") false
       else if key_in key [ord "d"; ord "D"] && truthy g then
         k <- selected_key ;;
         modify (set_goal_to_delete (Some k)) ;;
         modify (set_current_state delete_confirm)
       else if key_in key [ord "q"; ord "Q"] then
         set_status ev (Text "Saving and quitting...") false ;;
         raise KeyboardInterrupt
       else if key_in key [ord "?"] then
         (* the message starts with an emoji, left out here *)
         set_status ev (Text "Remember: each step matters!") false
       else ret tt)
    KeyboardInterrupt
    (quit ev).

(** *** Goal view *)

Definition draw_goal : M unit :=
  g <- gets goals ;;
  cg <- gets current_goal ;;
  data <- lift (getitem g cg) ;;
  c <- lift (getitem data (Some "counter")) ;;
  has_upd <- lift (contains data "last_updated") ;;
  upd <- (if has_upd : bool then
            u <- lift (getitem data (Some "last_updated")) ;; ret (Some u)
          else ret None) ;;
  modify (set_content_win (GoalFrame cg c upd)).

(** [data] is the record object stored in [self.goals]; a change made
    through [data] is a change of [self.goals[self.current_goal]]. *)
Definition store_data (data : pyval) : M unit :=
  g <- gets goals ;;
  cg <- gets current_goal ;;
  match cg with
  | Some k => g' <- lift (setitem g k data) ;; modify (set_goals g')
  | None => ret tt
  end.

(** The bound method [v.append]: looking it up fails on anything but a list. *)
Definition attr_append (v : pyval) : res (pyval -> pyval) :=
  match v with
  | PList l => Ok (fun x => PList (l ++ [x]))
  | _ => Raise AttributeError
  end.

Definition motivational_messages : list string :=
  [ "Every count is a step toward your goal!";
    "Small steps lead to big changes!";
    "Consistency is key to success!";
    "You're doing great, keep going!";
    "Progress, not perfection!" ].

Definition handle_goal_input (ev : event) : M unit :=
  let key := ev_key ev in
  if key =? -1 then ret tt
  else
    g <- gets goals ;;
    cg <- gets current_goal ;;
    data <- lift (getitem g cg) ;;
    need_redraw <-
      (if key_in key [ord "i"; ord "I"] then
         (* data['history'].append(data['counter']) *)
         h <- lift (getitem data (Some "history")) ;;
         append <- lift (attr_append h) ;;
         c <- lift (getitem data (Some "counter")) ;;
         data1 <- lift (setitem data "history" (append c)) ;;
         store_data data1 ;;
         (* data['counter'] += 1 *)
         c <- lift (getitem data1 (Some "counter")) ;;
         c' <- lift (py_add1 c) ;;
         data2 <- lift (setitem data1 "counter" c') ;;
         store_data data2 ;;
         (* data['last_updated'] = ... *)
         data3 <- lift (setitem data2 "last_updated" (PStr (ev_now ev))) ;;
         store_data data3 ;;
         save_data ev ;;
         set_status ev (Fmt "Counter increased to " c' "") false ;;
         ret true
       else if key_in key [ord "u"; ord "U"] then
         h <- lift (getitem data (Some "history")) ;;
         if truthy h then
           (* data['counter'] = data['history'].pop() *)
           p <- lift (py_pop h) ;;
           data1 <- lift (setitem data "history" (snd p)) ;;
           store_data data1 ;;
           data2 <- lift (setitem data1 "counter" (fst p)) ;;
           store_data data2 ;;
           data3 <- lift (setitem data2 "last_updated" (PStr (ev_now ev))) ;;
           store_data data3 ;;
           save_data ev ;;
           set_status ev (Fmt "Counter reset to " (fst p) "") false ;;
           ret true
         else
           (* the key is none of m, M, q, Q, ? *)
           ret false
       else if key_in key [ord "m"; ord "M"] then
         modify (set_current_goal None) ;;
         modify (set_current_state menu) ;;
         set_status ev (Text "Returned to menu") false ;;
         ret false
       else if key_in key [ord "q"; ord "Q"] then
         set_status ev (Text "Saving and quitting...") false ;;
         quit ev ;;
         ret false
       else if key_in key [ord "?"] then
         (* random.choice(motivational_messages), after the same emoji *)
         set_status ev
           (Text (nth (ev_pick ev mod 5)%nat motivational_messages "")) false ;;
         ret false
       else ret false) ;;
    if need_redraw : bool then draw_goal else ret tt.

(** *** Goal creation *)

Definition draw_create_goal : M unit :=
  modify (set_textbox true) ;;
  modify (set_content_win CreateFrame).

Definition new_goal (now : string) : pyval :=
  PDict [ ("counter", PInt 0); ("history", PList []);
          ("created_at", PStr now); ("last_updated", PStr now) ].

Definition handle_create_goal (ev : event) : M unit :=
  tb <- gets textbox ;;
  if negb tb then raise AttributeError
  else
    let goal_name := strip (ev_text ev) in
    if has_char ESC goal_name || String.eqb goal_name "" then
      set_status ev (Text "Goal creation cancelled") false ;;
      modify (set_current_state menu)
    else
      g <- gets goals ;;
      dup <- lift (contains g goal_name) ;;
      if dup : bool then
        show_error ev (Fmt "Goal '" (PStr goal_name) "' already exists!")
      else
        g' <- lift (setitem g goal_name (new_goal (ev_now ev))) ;;
        modify (set_goals g') ;;
        save_data ev ;;
        modify (set_current_goal (Some goal_name)) ;;
        modify (set_current_state view_goal) ;;
        set_status ev (Fmt "Goal '" (PStr goal_name) "' created successfully!") false.

(** *** Deletion *)

Definition draw_delete_confirm : M unit :=
  k <- gets goal_to_delete ;;
  modify (set_content_win (DeleteFrame k)).

Definition handle_delete_confirm (ev : event) : M unit :=
  let key := ev_key ev in
  (if key_in key [ord "y"; ord "Y"] then
     deleted_name <- gets goal_to_delete ;;
     g <- gets goals ;;
     g' <- lift (delitem g deleted_name) ;;
     modify (set_goals g') ;;
     save_data ev ;;
     i <- gets selected_index ;;
     n <- lift (py_len g') ;;
     modify (set_selected_index (Z.max 0 (Z.min i (n - 1)))) ;;
     set_status ev
       (Fmt "Goal '"
            (match deleted_name with Some k => PStr k | None => PNone end)
            "' deleted successfully") false
   else if key_in key [ord "n"; ord "N"] then
     set_status ev (Text "Deletion cancelled") false
   else ret tt) ;;
  modify (set_current_state menu).

(** *** Main loop *)

Definition last_state_differs (cs : ui_state) (last : option ui_state) : bool :=
  match last with
  | Some l => negb (ui_state_eqb cs l)
  | None => true
  end.

(** One pass through the body of [while True].  [last_state] is the loop's
    local variable; its new value is returned. *)
Definition run_iteration (ev : event) (last_state : option ui_state)
  : M (option ui_state) :=
  sm <- gets status_message ;;
  st <- gets status_time ;;
  (if message_truthy sm && (ev_clock ev - st >? 3)
   then modify (set_status_message None) else ret tt) ;;
  cs <- gets current_state ;;
  last_state <-
    (if last_state_differs cs last_state || ui_state_eqb cs menu then
       match cs with
       | menu => draw_menu
       | view_goal => draw_goal
       | create_goal => draw_create_goal
       | delete_confirm => draw_delete_confirm
       end ;;
       ret (Some cs)
     else ret last_state) ;;
  match cs with
  | menu => handle_menu_input ev ;; ret last_state
  | view_goal => handle_goal_input ev ;; ret last_state
  | create_goal => handle_create_goal ev ;; ret None
  | delete_confirm => handle_delete_confirm ev ;; ret last_state
  end.

(** The loop, run for as many iterations as there are events.  [Ok] means
    that the loop is still going when the events are used up. *)
Fixpoint run_from (evs : list event) (last_state : option ui_state) : M unit :=
  match evs with
  | [] => ret tt
  | ev :: r => l <- run_iteration ev last_state ;; run_from r l
  end.

Definition run (evs : list event) : M unit := run_from evs None.

(** [__init__]: the attributes, then [load_data], then [run]. *)
Definition init_state (d : file) : state :=
  mkState (PDict []) None menu 0 false None None 0 false Blank d.

Definition ImpulseControlApp (evs : list event) : M unit :=
  load_data ;; run evs.

(** How the process stands after [cli()] has consumed the events. *)
Inductive process : Type :=
| Running                      (* still in the loop *)
| Exited (code : Z)            (* a normal exit *)
| Traceback (e : exn).         (* killed by an exception nobody caught *)

(** [cli]: [--version] prints and exits; otherwise only [KeyboardInterrupt]
    is caught around [main()]. *)
Definition cli (version : bool) (d : file) (evs : list event)
  : process * state :=
  if version then (Exited 0, init_state d)
  else
    match ImpulseControlApp evs (init_state d) with
    | (Ok _, s) => (Running, s)
    | (Raise KeyboardInterrupt, s) => (Exited 0, s)
    | (Raise e, s) => (Traceback e, s)
    end.

End App.

(* ================================================================== *)
(** ** Vocabulary of the statements *)
(* ================================================================== *)

Import Py App.

(** An event that carries a key press, and one that carries the text left
    in the entry field. *)
Definition key_event (k : Z) : event :=
  mkEvent k "" "2024-01-01 00:00:00" 0 true 0.
Definition text_event (t : string) : event :=
  mkEvent (-1) t "2024-01-01 00:00:00" 0 true 0.


(** Two files as [save_data] writes them, each with the single goal A at
    counter 3: the first record has no [history] member, the second an
    empty one. *)
Definition file_without_history : file :=
  Present (Json.dumps
    (PDict [("goals", PDict [("A", PDict [("counter", PInt 3)])])])).
Definition file_with_empty_history : file :=
  Present (Json.dumps
    (PDict [("goals",
             PDict [("A", PDict [("counter", PInt 3); ("history", PList [])])])])).


(** The goal view is open on the goal [name], whose record holds the
    integer counter [c] and the history list [h]. *)
Definition viewing (s : state) (name : string) (c : Z) (h : list pyval) : Prop :=
  current_state s = view_goal /\ current_goal s = Some name /\
  exists d rec,
    goals s = PDict d /\ dict_get d name = Some (PDict rec) /\
    dict_get rec "counter" = Some (PInt c) /\
    dict_get rec "history" = Some (PList h).

(** The record after an increment and after an undo. *)
Definition incremented (rec : dict) (c : Z) (h : list pyval) (now : string) : dict :=
  dict_set (dict_set (dict_set rec "history" (PList (h ++ [PInt c])))
                     "counter" (PInt (c + 1)))
           "last_updated" (PStr now).
Definition undone (rec : dict) (x : pyval) (h : list pyval) (now : string) : dict :=
  dict_set (dict_set (dict_set rec "history" (PList h)) "counter" x)
           "last_updated" (PStr now).

(** The counter values the increments push when they start from [c]:
    [c], [c+1], ..., [c+m-1]. *)
Definition pushed (c : Z) (m : nat) : list pyval :=
  map (fun i => PInt (c + Z.of_nat i)) (seq 0 m).

(** The goal view after [m] increments that have not been undone. *)
Definition view_m (name : string) (c : Z) (h : list pyval)
  (s : state) (m : nat) : Prop :=
  viewing s name (c + Z.of_nat m) (h ++ pushed c m).

Definition is_increment (ev : event) : Prop :=
  key_in (ev_key ev) [ord "i"; ord "I"] = true /\ ev_disk_ok ev = true.
Definition is_undo (ev : event) : Prop :=
  key_in (ev_key ev) [ord "u"; ord "U"] = true /\ ev_disk_ok ev = true.

(** No dictionary inside [v] has a repeated key: the invariant that a
    Python [dict] has by construction and an association list has not. *)
Fixpoint nodupb (l : list string) : bool :=
  match l with
  | [] => true
  | x :: r => negb (existsb (String.eqb x) r) && nodupb r
  end.

Fixpoint well_formed (v : pyval) : bool :=
  match v with
  | PList l => forallb well_formed l
  | PDict d => nodupb (keys d) && forallb (fun kv => well_formed (snd kv)) d
  | _ => true
  end.

(** A bound on the nesting of decoder calls that [dumps v] needs. *)
Fixpoint weight (v : pyval) : nat :=
  match v with
  | PList l => S (fold_right (fun x n => S (weight x + n)) O l)
  | PDict d => S (fold_right (fun kv n => S (weight (snd kv) + n)) O d)
  | _ => 1
  end.

(** What can follow a value in a JSON text: nothing, a comma, a closing
    bracket or brace. *)
Definition delimited (s : string) : bool :=
  match s with
  | EmptyString => true
  | String c _ => Ascii.eqb c "," || Ascii.eqb c "]" || Ascii.eqb c "}"
  end.

(** The first character of an encoded value. *)
Definition value_start (c : ascii) : bool :=
  Json.is_digit c || Ascii.eqb c "-" || Ascii.eqb c Json.dquote
  || Ascii.eqb c "[" || Ascii.eqb c "{"
  || Ascii.eqb c "n" || Ascii.eqb c "t" || Ascii.eqb c "f".

Definition starts_value (s : string) : bool :=
  match s with
  | String c _ => value_start c
  | EmptyString => false
  end.

Definition elems_weight (l : list pyval) : nat :=
  fold_right (fun x n => S (weight x + n)) O l.
Definition members_weight (d : dict) : nat :=
  fold_right (fun kv n => S (weight (snd kv) + n)) O d.

(** One member of an encoded object. *)
Definition dump_member (kv : string * pyval) : string :=
  (Json.dump_str (fst kv) ++ ": " ++ Json.dumps (snd kv))%string.

(** Decoding the encoding of [v] gives [v] back and stops right after it. *)
Definition roundtrips (v : pyval) : Prop :=
  forall fuel rest,
    (weight v <= fuel)%nat -> delimited rest = true ->
    Json.parse_value fuel (Json.dumps v ++ rest)%string = Ok (v, rest).

(** A decoding step on a text of length below [n]: a result leaves a
    shorter text to read, and what is raised is not [RecursionError]. *)
Definition fine {A} (n : nat) (r : res (A * string)) : Prop :=
  match r with
  | Ok p => (String.length (snd p) < n)%nat
  | Raise e => e <> RecursionError
  end.

(** The same without the promise about [RecursionError]. *)
Definition lands_below {A} (n : nat) (r : res (A * string)) : Prop :=
  match r with
  | Ok p => (String.length (snd p) < n)%nat
  | Raise _ => True
  end.

Definition within_budget {A} (r : res A) : Prop := r <> Raise RecursionError.

(** The promise about [RecursionError] holds under the condition [b]. *)
Definition fine_if {A} (b : Prop) (n : nat) (r : res (A * string)) : Prop :=
  match r with
  | Ok p => (String.length (snd p) < n)%nat
  | Raise e => b -> e <> RecursionError
  end.

(** A record the goal view can work on: an integer counter and a history
    of integers. *)
Definition record_ok (v : pyval) : Prop :=
  exists rec c hs,
    v = PDict rec /\ dict_get rec "counter" = Some (PInt c)
    /\ dict_get rec "history" = Some (PList (map PInt hs)).

(** What every handler can rely on at the top of the loop: the registry is
    a dictionary of such records; the selection is -1 or a row; the goal
    on display and the goal to delete are names of the registry. *)
Definition app_ok (s : state) : Prop :=
  exists d,
    goals s = PDict d
    /\ Forall (fun kv => record_ok (snd kv)) d
    /\ -1 <= selected_index s < Z.max 1 (Z.of_nat (List.length d))
    /\ match current_state s with
       | menu | create_goal => True
       | view_goal =>
           exists name, current_goal s = Some name /\ dict_mem d name = true
       | delete_confirm =>
           exists name, goal_to_delete s = Some name /\ dict_mem d name = true
       end.

(** How the handling of [ev] in state [s] may end: normally, in a state
    that is again [app_ok]; by the quit key; or by [IndexError], in the one
    situation of the up key in the menu of an empty registry. *)
Definition safe_outcome {A} (ev : event) (s : state) (r : res A * state) : Prop :=
  match r with
  | (Ok _, s') => app_ok s'
  | (Raise e, _) =>
      (e = KeyboardInterrupt /\ key_in (ev_key ev) [ord "q"; ord "Q"] = true)
      \/ (e = IndexError /\ current_state s = menu /\ goals s = PDict []
          /\ ev_key ev = KEY_UP)
  end.



(** The file at start-up: none, or one that [save_data] wrote from a
    valid registry. *)
Definition file_ok (valid : pyval -> bool) (d : file) : Prop :=
  d = Absent
  \/ exists g, valid g = true /\ d = Present (Json.dumps (PDict [("goals", g)])).

(** A registry as the spec describes it: names without repetition, each
    mapped to a record without repeated fields that holds an integer
    [counter], a [history] list of integers and the two timestamps as
    strings, every other field being an integer, a string or a list of
    integers. *)
Definition is_int (v : pyval) : bool :=
  match v with PInt _ => true | _ => false end.
Definition is_str (v : pyval) : bool :=
  match v with PStr _ => true | _ => false end.
Definition is_int_list (v : pyval) : bool :=
  match v with PList l => forallb is_int l | _ => false end.
Definition field_is (p : pyval -> bool) (r : dict) (k : string) : bool :=
  match dict_get r k with Some v => p v | None => false end.

Definition valid_goal (v : pyval) : bool :=
  match v with
  | PDict r =>
      nodupb (keys r)
      && forallb (fun kv => is_int (snd kv) || is_str (snd kv)
                            || is_int_list (snd kv)) r
      && field_is is_int r "counter" && field_is is_int_list r "history"
      && field_is is_str r "created_at" && field_is is_str r "last_updated"
  | _ => false
  end.

Definition valid_registry (g : pyval) : bool :=
  match g with
  | PDict d => nodupb (keys d) && forallb (fun kv => valid_goal (snd kv)) d
  | _ => false
  end.

(** The selection points at a row of the goal list. *)
Definition selection_in_range (s : state) : Prop :=
  match py_len (goals s) with
  | Ok n => 0 < n -> 0 <= selected_index s < n
  | Raise _ => True
  end.

(** Induction on values, with the hypothesis available for every element
    of a list and every value of a dictionary. *)
Section PyvalInduction.

Variable P : pyval -> Prop.
Hypothesis HNone : P PNone.
Hypothesis HBool : forall b, P (PBool b).
Hypothesis HInt : forall n, P (PInt n).
Hypothesis HStr : forall s, P (PStr s).
Hypothesis HList : forall l, Forall P l -> P (PList l).
Hypothesis HDict : forall d, Forall (fun kv => P (snd kv)) d -> P (PDict d).

Fixpoint pyval_induction (v : pyval) : P v :=
  match v with
  | PNone => HNone
  | PBool b => HBool b
  | PInt n => HInt n
  | PStr s => HStr s
  | PList l =>
      HList l ((fix go (l : list pyval) : Forall P l :=
                  match l with
                  | [] => Forall_nil _
                  | x :: r => Forall_cons x (pyval_induction x) (go r)
                  end) l)
  | PDict d =>
      HDict d ((fix go (d : list (string * pyval))
                  : Forall (fun kv => P (snd kv)) d :=
                  match d with
                  | [] => Forall_nil _
                  | kv :: r => Forall_cons kv (pyval_induction (snd kv)) (go r)
                  end) d)
  end.

End PyvalInduction.

(** *** Vocabulary for the rest of main.py *)

(** A text made of whitespace only (the empty text included). *)
Fixpoint all_space (s : string) : bool :=
  match s with
  | EmptyString => true
  | String c r => is_space c && all_space r
  end.

(** The text starts, or ends, with a whitespace character. *)
Definition head_space (s : string) : bool :=
  match s with
  | String c _ => is_space c
  | EmptyString => false
  end.

Fixpoint last_space (s : string) : bool :=
  match s with
  | EmptyString => false
  | String c EmptyString => is_space c
  | String _ r => last_space r
  end.

(** The keys that the menu, and the goal view, react to. *)
Definition menu_keys : list Z :=
  [KEY_UP; KEY_DOWN; 10; 13; ord "c"; ord "C"; ord "d"; ord "D";
   ord "q"; ord "Q"; ord "?"].
Definition goal_keys : list Z :=
  [ord "i"; ord "I"; ord "u"; ord "U"; ord "m"; ord "M";
   ord "q"; ord "Q"; ord "?"].


(** The four changes that the handlers make to the registry: a name that
    was not there is given the record of a new goal; a name is removed; the
    record of a goal is incremented; the last increment of a goal is undone. *)
Inductive registry_step (now : string) (d : dict) : dict -> Prop :=
| step_create (name : string) :
    dict_mem d name = false ->
    registry_step now d (dict_set d name (new_goal now))
| step_delete (name : string) :
    dict_mem d name = true ->
    registry_step now d (dict_del d name)
| step_increment (name : string) (rec : dict) (c : Z) (h : list pyval) :
    dict_get d name = Some (PDict rec) ->
    dict_get rec "counter" = Some (PInt c) ->
    dict_get rec "history" = Some (PList h) ->
    registry_step now d (dict_set d name (PDict (incremented rec c h now)))
| step_undo (name : string) (rec : dict) (x : pyval) (h : list pyval) :
    dict_get d name = Some (PDict rec) ->
    dict_get rec "history" = Some (PList (h ++ [x])) ->
    registry_step now d (dict_set d name (PDict (undone rec x h now))).

(** The file holds what [save_data] writes from the registry in memory. *)
Definition written (s : state) : Prop :=
  disk s = Present (Json.dumps (PDict [("goals", goals s)])).


(** What handling [ev] in state [s] does to the registry and to the file,
    and how it may end.  The registry is as it was or has made one step.
    When [OSError] is raised the write was refused and the file is as it
    was; in every other case the file holds the registry, or neither has
    changed.  The ways to end are those of [safe_outcome], and [OSError]. *)
Definition effect {A} (ev : event) (s : state) (r : res A * state) : Prop :=
  (goals (snd r) = goals s
   \/ exists d d', goals s = PDict d /\ goals (snd r) = PDict d'
                   /\ registry_step (ev_now ev) d d')
  /\ match fst r with
     | Raise OSError => ev_disk_ok ev = false /\ disk (snd r) = disk s
     | _ => written (snd r) \/ (disk (snd r) = disk s /\ goals (snd r) = goals s)
     end
  /\ match fst r with
     | Ok _ => app_ok (snd r)
     | Raise e =>
         e = OSError
         \/ (e = KeyboardInterrupt /\ key_in (ev_key ev) [ord "q"; ord "Q"] = true)
         \/ (e = IndexError /\ current_state s = menu /\ goals s = PDict []
             /\ ev_key ev = KEY_UP)
     end.

(** A record whose counter is the number of entries of its history, the
    history being 0, 1, ..., counter - 1. *)
Definition counted (v : pyval) : Prop :=
  exists rec c,
    v = PDict rec /\ dict_get rec "counter" = Some (PInt (Z.of_nat c))
    /\ dict_get rec "history" = Some (PList (pushed 0 c)).

Definition all_counted (g : pyval) : Prop :=
  exists d, g = PDict d /\ Forall (fun kv => counted (snd kv)) d.





(* ================================================================== *)
(** ** Properties *)
(* ================================================================== *)

(** *** Keys *)

Lemma key_in_two (k a b : Z) :
  key_in k [a; b] = true -> k = a \/ k = b.
Proof.
  unfold key_in; simpl.
  destruct (Z.eqb_spec k a); [now left|].
  destruct (Z.eqb_spec k b); [now right|discriminate].
Qed.

(** Unfolds the monad so that a handler applied to a state computes. *)
Ltac run_monad :=
  cbv [bind ret raise lift gets modify try_except set_status show_error
       store_data save_data quit selected_key].

(** *** Dictionaries *)

Lemma dict_get_set_same (d : dict) (k : string) (v : pyval) :
  dict_get (dict_set d k v) k = Some v.
Proof.
  induction d as [|[k' v'] r IH]; simpl.
  - now rewrite String.eqb_refl.
  - destruct (String.eqb k k') eqn:E; simpl; rewrite E; auto.
Qed.

Lemma dict_get_set_other (d : dict) (k k' : string) (v : pyval) :
  k' <> k -> dict_get (dict_set d k v) k' = dict_get d k'.
Proof.
  intros Hne. induction d as [|[k0 v0] r IH]; simpl.
  - destruct (String.eqb_spec k' k); congruence.
  - destruct (String.eqb_spec k k0); simpl.
    + subst k0. destruct (String.eqb_spec k' k); congruence.
    + destruct (String.eqb_spec k' k0); auto.
Qed.

Lemma dict_set_set (d : dict) (k : string) (v w : pyval) :
  dict_set (dict_set d k v) k w = dict_set d k w.
Proof.
  induction d as [|[k' v'] r IH]; simpl.
  - now rewrite String.eqb_refl.
  - destruct (String.eqb k k') eqn:E; simpl; rewrite E; congruence.
Qed.

Lemma dict_set_mem (d : dict) (k : string) (v : pyval) :
  dict_mem (dict_set d k v) k = true.
Proof. unfold dict_mem. now rewrite dict_get_set_same. Qed.

Ltac dict_simpl :=
  repeat first
    [ rewrite dict_get_set_same
    | rewrite dict_set_set
    | rewrite dict_set_mem
    | rewrite dict_get_set_other by discriminate ].

Ltac state_simpl :=
  cbn [goals current_goal current_state selected_index textbox goal_to_delete
       status_message status_time is_error content_win disk
       set_goals set_current_goal set_current_state set_selected_index
       set_textbox set_goal_to_delete set_status_fields set_status_message
       set_content_win set_disk
       getitem setitem contains py_add1 attr_append fst snd].

(** *** Undo on an empty history *)

Section Undo.

(** C4.  When the goal on display has an empty history, the undo key
    changes nothing at all: the handler returns normally and the whole
    state, hence the goal's counter and history, is the one it started
    from. *)
Theorem undo_empty_history_noop (ev : event) (s : state)
    (d rec : dict) (name : string) :
  key_in (ev_key ev) [ord "u"; ord "U"] = true ->
  goals s = PDict d ->
  current_goal s = Some name ->
  dict_get d name = Some (PDict rec) ->
  dict_get rec "history" = Some (PList []) ->
  handle_goal_input ev s = (Ok tt, s).
Proof.
  intros Hkey Hg Hc Hn Hh.
  destruct s as [g cg cs si tb gd sm st ie cw dk]; simpl in *; subst g cg.
  apply key_in_two in Hkey.
  unfold handle_goal_input. run_monad. simpl.
  destruct Hkey as [-> | ->]; simpl; rewrite Hn; simpl; rewrite Hh; reflexivity.
Qed.

Lemma undo_empty_history_noop_witness :
  let s := mkState
             (PDict [("Smoking", PDict [("counter", PInt 0); ("history", PList [])])])
             (Some "Smoking") view_goal 0 true None None 0 false Blank Absent in
  let ev := mkEvent (ord "u") "" "2024-01-01 00:00:00" 7 true 0 in
  handle_goal_input ev s = (Ok tt, s).
Proof.
  intros s ev.
  apply (undo_empty_history_noop ev s
           [("Smoking", PDict [("counter", PInt 0); ("history", PList [])])]
           [("counter", PInt 0); ("history", PList [])] "Smoking");
    reflexivity.
Defined.

End Undo.

(** *** Deletion prompt *)

Section DeleteConfirm.

(** C10.  In the deletion prompt only y and Y reach the registry: on any
    other key, the no-key value -1 included, the handler returns normally
    with the goals, the file and the selection untouched, and the state is
    [menu].  And whatever the key, a handler that returns has set the state
    to [menu]. *)
Theorem delete_confirm_only_yes (ev : event) (s : state) :
  (key_in (ev_key ev) [ord "y"; ord "Y"] = false ->
   exists s', handle_delete_confirm ev s = (Ok tt, s')
              /\ goals s' = goals s /\ disk s' = disk s
              /\ selected_index s' = selected_index s
              /\ current_state s' = menu)
  /\ (forall s', handle_delete_confirm ev s = (Ok tt, s') ->
                 current_state s' = menu).
Proof.
  split.
  - intros Hk. unfold handle_delete_confirm. rewrite Hk. run_monad.
    destruct (key_in (ev_key ev) [ord "n"; ord "N"]);
      eexists; (split; [reflexivity|]); simpl; auto.
  - intros s'. unfold handle_delete_confirm. run_monad.
    destruct (key_in (ev_key ev) [ord "y"; ord "Y"]).
    + destruct (delitem (goals s) (goal_to_delete s)); [|discriminate].
      destruct (ev_disk_ok ev); [|discriminate].
      simpl. destruct (py_len a); [|discriminate].
      intros H; inversion H; reflexivity.
    + destruct (key_in (ev_key ev) [ord "n"; ord "N"]);
        intros H; inversion H; reflexivity.
Qed.

Lemma delete_confirm_only_yes_witness :
  let s := mkState (PDict [("A", new_goal "t")]) None delete_confirm 0 true
                   (Some "A") None 0 false Blank Absent in
  let ev := mkEvent (-1) "" "t" 1 true 0 in
  exists s', handle_delete_confirm ev s = (Ok tt, s')
             /\ goals s' = goals s /\ disk s' = disk s
             /\ selected_index s' = selected_index s
             /\ current_state s' = menu.
Proof.
  intros s ev.
  apply (proj1 (delete_confirm_only_yes ev s)). reflexivity.
Defined.

End DeleteConfirm.

(** *** Keys of the menu on an empty registry *)

Section Menu.

Lemma list_index_in_range {A} (l : list A) (i : Z) :
  0 <= i < Z.of_nat (List.length l) -> exists a, list_index l i = Ok a.
Proof.
  intros H. unfold list_index.
  destruct (Z.ltb_spec i 0); [lia|].
  destruct (Z.ltb_spec i 0); [lia|].
  destruct (Z.leb_spec (Z.of_nat (List.length l)) i); [lia|]. simpl.
  destruct (nth_error l (Z.to_nat i)) eqn:E; [eauto|].
  apply nth_error_None in E. lia.
Qed.

Lemma list_index_nil {A} (i : Z) : @list_index A [] i = Raise IndexError.
Proof.
  unfold list_index. simpl.
  destruct (Z.ltb_spec i 0).
  - destruct (Z.ltb_spec (i + 0) 0); [reflexivity|lia].
  - destruct (Z.ltb_spec i 0); [lia|].
    destruct (Z.leb_spec 0 i); [reflexivity|lia].
Qed.

(** With no goal at all, the up key raises [IndexError] from inside the
    [try] block, whose only handler is for [KeyboardInterrupt]. *)
Lemma menu_up_empty_raises (ev : event) (s : state) :
  ev_key ev = KEY_UP -> goals s = PDict [] ->
  fst (handle_menu_input ev s) = Raise IndexError.
Proof.
  intros Hk Hg. unfold handle_menu_input. rewrite Hk. run_monad. simpl.
  rewrite Hg. simpl. rewrite list_index_nil. reflexivity.
Qed.

(** With no goal at all, the down key stores -1 in [selected_index]. *)
Lemma menu_down_empty_index (ev : event) (s : state) :
  ev_key ev = KEY_DOWN -> goals s = PDict [] -> 0 <= selected_index s ->
  exists s', handle_menu_input ev s = (Ok tt, s') /\ selected_index s' = -1.
Proof.
  intros Hk Hg Hi. unfold handle_menu_input. rewrite Hk. run_monad. simpl.
  rewrite Hg. simpl. eexists; split; [reflexivity|]. simpl. lia.
Qed.

(** X6.  On a registry with at least one goal and a selection in range,
    the up and down keys keep the selection in range, one step away at most
    and without wrapping; the registry is untouched. *)
Lemma menu_up_down_in_range (ev : event) (s : state) (d : dict) :
  ev_key ev = KEY_UP \/ ev_key ev = KEY_DOWN ->
  goals s = PDict d -> d <> [] ->
  0 <= selected_index s < Z.of_nat (List.length d) ->
  exists s', handle_menu_input ev s = (Ok tt, s')
             /\ goals s' = goals s
             /\ selected_index s' =
                  (if ev_key ev =? KEY_UP then Z.max 0 (selected_index s - 1)
                   else Z.min (Z.of_nat (List.length d) - 1) (selected_index s + 1))
             /\ 0 <= selected_index s' < Z.of_nat (List.length d).
Proof.
  intros Hk Hg Hd Hi.
  destruct s as [g cg cs si tb gd sm st ie cw dk]; simpl in *; subst g.
  unfold handle_menu_input. run_monad. simpl.
  destruct Hk as [-> | ->]; simpl.
  - destruct (list_index_in_range (keys d) (Z.max 0 (si - 1))) as [a Ha].
    { unfold keys. rewrite length_map. lia. }
    rewrite Ha. eexists; split; [reflexivity|]. simpl. repeat split; lia.
  - destruct d as [|kv r]; [congruence|]. cbn [truthy].
    remember (kv :: r) as d eqn:Ed. clear Ed Hd.
    destruct (list_index_in_range (keys d)
                (Z.min (Z.of_nat (List.length d) - 1) (si + 1))) as [a Ha].
    { unfold keys. rewrite length_map. lia. }
    unfold set_selected_index. cbn [goals selected_index py_keys].
    rewrite Ha. eexists; split; [reflexivity|]. simpl. repeat split; lia.
Qed.


(** C7.  A session that starts without a file, leaves the entry field
    empty (which opens the menu on an empty registry) and then presses the
    up key ends in a traceback: [IndexError] is raised by the handler and
    is caught nowhere.  The down key in the same state is harmless. *)
Theorem menu_up_on_empty_registry_kills_process :
  fst (handle_menu_input (key_event KEY_UP) (init_state Absent)) = Raise IndexError
  /\ fst (cli false Absent [text_event ""; key_event KEY_UP]) = Traceback IndexError
  /\ fst (cli false Absent [text_event ""; key_event KEY_DOWN]) = Running.
Proof. repeat split; vm_compute; reflexivity. Qed.

(** C6.  The same opening followed by the down key, the create key and a
    name leaves a registry of one goal with [selected_index] equal to -1:
    the down key computed [min(len - 1, index + 1)] on the empty registry. *)
Theorem selection_negative_after_down_on_empty_registry :
  let r := cli false Absent
             [text_event ""; key_event KEY_DOWN; key_event (ord "c"); text_event "A"] in
  fst r = Running
  /\ py_len (goals (snd r)) = Ok 1
  /\ selected_index (snd r) = -1
  /\ ~ selection_in_range (snd r).
Proof.
  cbv zeta. repeat split; try (vm_compute; reflexivity).
  vm_compute. intros H. specialize (H eq_refl). destruct H as [H _].
  apply H. reflexivity.
Qed.

End Menu.

(** *** Loading *)

Section Load.

Lemma load_absent :
  load_data (init_state Absent)
  = (Ok tt, set_current_state create_goal (init_state Absent)).
Proof. reflexivity. Qed.

(** A text that the decoder rejects is read as an empty registry. *)
Lemma load_undecodable (text : string) :
  Json.loads text = Raise JSONDecodeError ->
  load_data (init_state (Present text))
  = (Ok tt, set_current_state create_goal (init_state (Present text))).
Proof.
  intros H. unfold load_data. run_monad. simpl. rewrite H. reflexivity.
Qed.

(** A text that decodes to an object yields its [goals] member, whatever
    that is, or an empty registry when there is none. *)
Lemma load_object (text : string) (top : dict) :
  Json.loads text = Ok (PDict top) ->
  let g := match dict_get top "goals" with Some x => x | None => PDict [] end in
  load_data (init_state (Present text))
  = (Ok tt,
     (if truthy g then fun s => s else set_current_state create_goal)
       (set_goals g (init_state (Present text)))).
Proof.
  intros H g. unfold load_data. run_monad. simpl. rewrite H. simpl.
  fold g. destruct (truthy g); reflexivity.
Qed.

(** C2.  A file that holds the JSON text [[]] decodes without error, so
    the handler for [JSONDecodeError] does not run, and [data.get] raises
    [AttributeError] on the list: loading fails and the process dies at
    start-up. *)
Theorem load_of_json_array_kills_process :
  Json.loads "[]" = Ok (PList [])
  /\ load_data (init_state (Present "[]"))
     = (Raise AttributeError, init_state (Present "[]"))
  /\ fst (cli false (Present "[]") []) = Traceback AttributeError.
Proof. repeat split; vm_compute; reflexivity. Qed.

End Load.

(** *** Records without a history *)

Section MissingHistory.

(** C9, as stated, fails: a goal loaded without a [history] member is
    displayed, but the increment key and the undo key both end the process
    with [KeyError], where the same goal with an empty history is
    incremented. *)
Lemma missing_history_keyerror :
  fst (cli false file_without_history [key_event 10]) = Running
  /\ fst (cli false file_without_history [key_event 10; key_event (ord "i")])
     = Traceback KeyError
  /\ fst (cli false file_without_history [key_event 10; key_event (ord "u")])
     = Traceback KeyError
  /\ fst (cli false file_with_empty_history [key_event 10; key_event (ord "i")])
     = Running.
Proof. repeat split; vm_compute; reflexivity. Qed.

(** C9, amended.  [load_data] takes the [goals] member of the decoded
    object as it is, whatever its records hold.  For a goal whose record has
    no [history]: drawing it needs only the counter and shows
    [last_updated] when there is one; the increment and undo keys raise
    [KeyError] and leave the state as it was. *)
Theorem missing_history_not_defaulted :
  (forall text top g,
      Json.loads text = Ok (PDict top) -> dict_get top "goals" = Some g ->
      truthy g = true ->
      load_data (init_state (Present text))
      = (Ok tt, set_goals g (init_state (Present text))))
  /\ (forall s d rec name,
      goals s = PDict d -> current_goal s = Some name ->
      dict_get d name = Some (PDict rec) -> dict_get rec "history" = None ->
      (forall c, dict_get rec "counter" = Some c ->
         draw_goal s
         = (Ok tt, set_content_win
                     (GoalFrame (Some name) c (dict_get rec "last_updated")) s))
      /\ (forall ev,
            key_in (ev_key ev) [ord "i"; ord "I"] = true
            \/ key_in (ev_key ev) [ord "u"; ord "U"] = true ->
            handle_goal_input ev s = (Raise KeyError, s))).
Proof.
  split.
  - intros text top g Hl Hg Ht.
    pose proof (load_object text top Hl) as H. cbv zeta in H.
    rewrite Hg, Ht in H. exact H.
  - intros s d rec name Hg Hc Hn Hh. split.
    + intros c Hcnt. unfold draw_goal. run_monad. rewrite Hg, Hc. simpl.
      rewrite Hn. simpl. rewrite Hcnt. unfold dict_mem.
      destruct (dict_get rec "last_updated"); reflexivity.
    + intros ev Hk. unfold handle_goal_input. run_monad.
      assert (Hne : (ev_key ev =? -1) = false).
      { destruct Hk as [Hk|Hk]; apply key_in_two in Hk;
          destruct Hk as [-> | ->]; reflexivity. }
      rewrite Hne, Hg, Hc. cbn [getitem]. rewrite Hn. cbv beta iota.
      destruct Hk as [Hk|Hk].
      * rewrite Hk. cbn [getitem]. rewrite Hh. reflexivity.
      * assert (Hi : key_in (ev_key ev) [ord "i"; ord "I"] = false).
        { apply key_in_two in Hk; destruct Hk as [-> | ->]; reflexivity. }
        rewrite Hi, Hk. cbn [getitem]. rewrite Hh. reflexivity.
Qed.

Lemma missing_history_not_defaulted_witness :
  let s := mkState (PDict [("A", PDict [("counter", PInt 3)])]) (Some "A")
                   view_goal 0 false None None 0 false Blank Absent in
  draw_goal s = (Ok tt, set_content_win (GoalFrame (Some "A") (PInt 3) None) s)
  /\ handle_goal_input (key_event (ord "i")) s = (Raise KeyError, s).
Proof.
  intros s.
  destruct (proj2 missing_history_not_defaulted s
              [("A", PDict [("counter", PInt 3)])] [("counter", PInt 3)] "A"
              eq_refl eq_refl eq_refl eq_refl) as [Hdraw Hkey].
  split.
  - apply (Hdraw (PInt 3)). reflexivity.
  - apply Hkey. left. reflexivity.
Defined.

End MissingHistory.

(** *** Increment and undo *)

Section GoalView.

(** The increment key on a well-formed record: the in-memory change is
    made first; what follows depends on the write. *)
Lemma handle_increment (ev : event) (s : state) (d rec : dict)
    (name : string) (c : Z) (h : list pyval) :
  key_in (ev_key ev) [ord "i"; ord "I"] = true ->
  goals s = PDict d -> current_goal s = Some name ->
  dict_get d name = Some (PDict rec) ->
  dict_get rec "counter" = Some (PInt c) ->
  dict_get rec "history" = Some (PList h) ->
  let s1 := set_goals
              (PDict (dict_set d name (PDict (incremented rec c h (ev_now ev))))) s in
  handle_goal_input ev s
  = if ev_disk_ok ev then
      (Ok tt,
       set_content_win
         (GoalFrame (Some name) (PInt (c + 1)) (Some (PStr (ev_now ev))))
         (set_status_fields (Some (Fmt "Counter increased to " (PInt (c + 1)) ""))
            (ev_clock ev) false
            (set_disk (Present (Json.dumps (PDict [("goals", goals s1)]))) s1)))
    else (Raise OSError, s1).
Proof.
  intros Hk Hg Hc Hn Hcnt Hh s1.
  assert (Hne : (ev_key ev =? -1) = false).
  { apply key_in_two in Hk; destruct Hk as [-> | ->]; reflexivity. }
  unfold handle_goal_input. rewrite Hne, Hk. unfold draw_goal. run_monad.
  subst s1. destruct s as [g cg cs si tb gd sm st ie cw dk].
  cbn [goals current_goal] in Hg, Hc. subst g cg.
  state_simpl. rewrite Hn. state_simpl. rewrite Hh. state_simpl.
  rewrite Hcnt. state_simpl. dict_simpl. rewrite Hcnt. state_simpl.
  dict_simpl. state_simpl.
  destruct (ev_disk_ok ev); repeat (progress (state_simpl; dict_simpl));
    reflexivity.
Qed.

(** The undo key on a record whose history ends with [x]. *)
Lemma handle_undo (ev : event) (s : state) (d rec : dict)
    (name : string) (c : Z) (h : list pyval) (x : pyval) :
  key_in (ev_key ev) [ord "u"; ord "U"] = true ->
  goals s = PDict d -> current_goal s = Some name ->
  dict_get d name = Some (PDict rec) ->
  dict_get rec "counter" = Some (PInt c) ->
  dict_get rec "history" = Some (PList (h ++ [x])) ->
  let s1 := set_goals
              (PDict (dict_set d name (PDict (undone rec x h (ev_now ev))))) s in
  handle_goal_input ev s
  = if ev_disk_ok ev then
      (Ok tt,
       set_content_win
         (GoalFrame (Some name) x (Some (PStr (ev_now ev))))
         (set_status_fields (Some (Fmt "Counter reset to " x ""))
            (ev_clock ev) false
            (set_disk (Present (Json.dumps (PDict [("goals", goals s1)]))) s1)))
    else (Raise OSError, s1).
Proof.
  intros Hk Hg Hc Hn Hcnt Hh s1.
  assert (Hne : (ev_key ev =? -1) = false).
  { apply key_in_two in Hk; destruct Hk as [-> | ->]; reflexivity. }
  assert (Hi : key_in (ev_key ev) [ord "i"; ord "I"] = false).
  { apply key_in_two in Hk; destruct Hk as [-> | ->]; reflexivity. }
  assert (Ht : truthy (PList (h ++ [x])) = true).
  { destruct h; reflexivity. }
  assert (Hp : py_pop (PList (h ++ [x])) = Ok (x, PList h)).
  { unfold py_pop. rewrite rev_app_distr. simpl. now rewrite rev_involutive. }
  unfold handle_goal_input. rewrite Hne, Hi, Hk. unfold draw_goal. run_monad.
  subst s1. destruct s as [g cg cs si tb gd sm st ie cw dk].
  cbn [goals current_goal] in Hg, Hc. subst g cg.
  state_simpl. rewrite Hn. state_simpl. rewrite Hh. state_simpl.
  rewrite Ht, Hp. state_simpl. dict_simpl. state_simpl.
  destruct (ev_disk_ok ev); repeat (progress (state_simpl; dict_simpl));
    reflexivity.
Qed.

Lemma viewing_frame (s s' : state) (name : string) (c : Z) (h : list pyval) :
  goals s' = goals s -> current_goal s' = current_goal s ->
  current_state s' = current_state s ->
  viewing s name c h -> viewing s' name c h.
Proof.
  unfold viewing. intros -> -> ->. auto.
Qed.

Lemma draw_goal_viewing (s : state) (name : string) (c : Z) (h : list pyval) :
  viewing s name c h -> exists f, draw_goal s = (Ok tt, set_content_win f s).
Proof.
  intros (_ & Hc & d & rec & Hg & Hn & Hcnt & _).
  unfold draw_goal. run_monad. rewrite Hg, Hc. cbn [getitem]. rewrite Hn.
  cbv beta iota. cbn [getitem]. rewrite Hcnt. cbv beta iota. cbn [contains].
  destruct (dict_mem rec "last_updated") eqn:E.
  - unfold dict_mem in E. cbn [getitem].
    destruct (dict_get rec "last_updated"); [|discriminate]. eauto.
  - eauto.
Qed.

Lemma viewing_increment (ev : event) (s : state) (name : string) (c : Z)
    (h : list pyval) :
  viewing s name c h -> is_increment ev ->
  exists s', handle_goal_input ev s = (Ok tt, s')
             /\ viewing s' name (c + 1) (h ++ [PInt c]).
Proof.
  intros (Hs & Hc & d & rec & Hg & Hn & Hcnt & Hh) (Hk & Hio).
  rewrite (handle_increment ev s d rec name c h Hk Hg Hc Hn Hcnt Hh), Hio.
  eexists; split; [reflexivity|].
  unfold viewing. state_simpl. repeat split; auto.
  exists (dict_set d name (PDict (incremented rec c h (ev_now ev)))),
         (incremented rec c h (ev_now ev)).
  unfold incremented. dict_simpl. auto.
Qed.

Lemma viewing_undo (ev : event) (s : state) (name : string) (c : Z)
    (h : list pyval) (x : Z) :
  viewing s name c (h ++ [PInt x]) -> is_undo ev ->
  exists s', handle_goal_input ev s = (Ok tt, s') /\ viewing s' name x h.
Proof.
  intros (Hs & Hc & d & rec & Hg & Hn & Hcnt & Hh) (Hk & Hio).
  rewrite (handle_undo ev s d rec name c h (PInt x) Hk Hg Hc Hn Hcnt Hh), Hio.
  eexists; split; [reflexivity|].
  unfold viewing. state_simpl. repeat split; auto.
  exists (dict_set d name (PDict (undone rec (PInt x) h (ev_now ev)))),
         (undone rec (PInt x) h (ev_now ev)).
  unfold undone. dict_simpl. auto.
Qed.

(** One iteration of the loop in the goal view: the status line may expire
    and the view may be redrawn, then the handler runs. *)
Lemma iteration_viewing (ev : event) (last : option ui_state) (s : state)
    (name : string) (c c' : Z) (h h' : list pyval) :
  viewing s name c h ->
  (forall s0, viewing s0 name c h ->
     exists s', handle_goal_input ev s0 = (Ok tt, s') /\ viewing s' name c' h') ->
  exists l' s', run_iteration ev last s = (Ok l', s') /\ viewing s' name c' h'.
Proof.
  intros Hv Hstep. unfold run_iteration.
  cbv [bind gets ret modify].
  destruct (message_truthy (status_message s) && (ev_clock ev - status_time s >? 3));
    cbv beta iota;
    [ assert (Hva : viewing (set_status_message None s) name c h)
        by (eapply viewing_frame; [| | |exact Hv]; reflexivity)
    | assert (Hva : viewing s name c h) by exact Hv ];
    (match type of Hva with
     | viewing ?sa _ _ _ =>
         assert (Hsa : current_state sa = view_goal) by apply Hva;
         rewrite Hsa;
         destruct (last_state_differs view_goal last || ui_state_eqb view_goal menu);
         [ destruct (draw_goal_viewing sa name c h Hva) as [f Hd]; rewrite Hd;
           destruct (Hstep (set_content_win f sa)) as (s' & He & Hv');
           [ eapply viewing_frame; [| | |exact Hva]; reflexivity
           | rewrite He; eauto ]
         | destruct (Hstep sa Hva) as (s' & He & Hv'); rewrite He; eauto ]
     end).
Qed.

Lemma pushed_S (c : Z) (m : nat) :
  pushed c (S m) = pushed c m ++ [PInt (c + Z.of_nat m)].
Proof. unfold pushed. rewrite seq_S, map_app. reflexivity. Qed.

Section Stack.

Variables (name : string) (c : Z) (h : list pyval).


Lemma peel_increments (incs rest : list event) :
  Forall is_increment incs ->
  forall s last m, view_m name c h s m ->
  exists s' l', view_m name c h s' (m + List.length incs)
                /\ run_from (incs ++ rest) last s = run_from rest l' s'.
Proof.
  induction 1 as [|ev incs Hev _ IH]; intros s last m Hv.
  - exists s, last. rewrite Nat.add_0_r. auto.
  - destruct (iteration_viewing ev last s name (c + Z.of_nat m)
                (c + Z.of_nat (S m)) (h ++ pushed c m) (h ++ pushed c (S m)) Hv)
      as (l1 & s1 & He & Hv1).
    { intros s0 H0. destruct (viewing_increment ev s0 _ _ _ H0 Hev) as (s' & E & V).
      exists s'. split; [exact E|].
      rewrite pushed_S, app_assoc.
      replace (c + Z.of_nat (S m)) with (c + Z.of_nat m + 1) by lia. exact V. }
    destruct (IH s1 l1 (S m) Hv1) as (s' & l' & Hv' & Hr).
    exists s', l'. split.
    + simpl List.length. now rewrite Nat.add_succ_r.
    + simpl. unfold bind at 1. rewrite He. exact Hr.
Qed.

Lemma peel_undos (undos rest : list event) :
  Forall is_undo undos ->
  forall s last m, (List.length undos <= m)%nat -> view_m name c h s m ->
  exists s' l', view_m name c h s' (m - List.length undos)
                /\ run_from (undos ++ rest) last s = run_from rest l' s'.
Proof.
  induction 1 as [|ev undos Hev _ IH]; intros s last m Hle Hv.
  - exists s, last. rewrite Nat.sub_0_r. auto.
  - simpl in Hle. destruct m as [|m]; [lia|].
    destruct (iteration_viewing ev last s name (c + Z.of_nat (S m))
                (c + Z.of_nat m) (h ++ pushed c (S m)) (h ++ pushed c m) Hv)
      as (l1 & s1 & He & Hv1).
    { intros s0 H0. rewrite pushed_S, app_assoc in H0.
      exact (viewing_undo ev s0 _ _ _ _ H0 Hev). }
    destruct (IH s1 l1 m ltac:(lia) Hv1) as (s' & l' & Hv' & Hr).
    exists s', l'. split.
    + exact Hv'.
    + simpl. unfold bind at 1. rewrite He. exact Hr.
Qed.

Lemma run_increments_undos (incs undos : list event) (s : state)
    (last : option ui_state) :
  viewing s name c h ->
  Forall is_increment incs -> Forall is_undo undos ->
  (List.length undos <= List.length incs)%nat ->
  exists s', run_from (incs ++ undos) last s = (Ok tt, s')
             /\ view_m name c h s' (List.length incs - List.length undos).
Proof.
  intros Hv Hi Hu Hle.
  assert (Hv0 : view_m name c h s 0).
  { unfold view_m, pushed. simpl. now rewrite Z.add_0_r, app_nil_r. }
  destruct (peel_increments incs undos Hi s last 0%nat Hv0) as (s1 & l1 & Hv1 & E1).
  rewrite <- (app_nil_r undos) in E1 |- *.
  destruct (peel_undos undos [] Hu s1 l1 _ Hle Hv1) as (s2 & l2 & Hv2 & E2).
  exists s2. split.
  - rewrite E1, E2. reflexivity.
  - rewrite app_nil_r. exact Hv2.
Qed.

End Stack.

Lemma Forall_prefix {A} (P : A -> Prop) (m : nat) (l : list A) :
  Forall P l -> Forall P (firstn m l).
Proof.
  intros H. revert m. induction H as [|a l Ha _ IH]; intros [|m]; simpl; auto.
Qed.

(** C1.  In the goal view, [n] increment keys followed by [k <= n] undo
    keys, each with a successful write, are all handled without an
    exception; afterwards the counter is the initial one plus [n - k] and
    the history is the initial one followed by the values pushed by the
    increments that were not undone.  After any prefix of the key sequence
    the counter is an integer that is not negative, provided the initial
    one is not. *)
Theorem increments_then_undos (s : state) (name : string) (c : Z)
    (h : list pyval) (incs undos : list event) (last : option ui_state) :
  viewing s name c h -> 0 <= c ->
  Forall is_increment incs -> Forall is_undo undos ->
  (List.length undos <= List.length incs)%nat ->
  let n := List.length incs in
  let k := List.length undos in
  (exists s', run_from (incs ++ undos) last s = (Ok tt, s')
              /\ viewing s' name (c + (Z.of_nat n - Z.of_nat k))
                         (h ++ pushed c (n - k)))
  /\ (forall m, exists s' x hx,
        run_from (firstn m (incs ++ undos)) last s = (Ok tt, s')
        /\ viewing s' name x hx /\ 0 <= x).
Proof.
  intros Hv Hc Hi Hu Hle n k. split.
  - destruct (run_increments_undos name c h incs undos s last Hv Hi Hu Hle)
      as (s' & E & V).
    exists s'. split; [exact E|].
    replace (c + (Z.of_nat n - Z.of_nat k)) with (c + Z.of_nat (n - k)) by lia.
    exact V.
  - intros m. rewrite firstn_app.
    assert (Hi' : Forall is_increment (firstn m incs)) by now apply Forall_prefix.
    assert (Hu' : Forall is_undo (firstn (m - List.length incs) undos))
      by now apply Forall_prefix.
    assert (Hle' : (List.length (firstn (m - List.length incs) undos)
                    <= List.length (firstn m incs))%nat).
    { rewrite !length_firstn. lia. }
    destruct (run_increments_undos name c h _ _ s last Hv Hi' Hu' Hle')
      as (s' & E & V).
    eexists s', _, _. split; [exact E|]. split; [exact V|]. lia.
Qed.

Lemma increments_then_undos_witness :
  let s := mkState (PDict [("Smoking", new_goal "t0")]) (Some "Smoking")
                   view_goal 0 true None None 0 false Blank Absent in
  let i := key_event (ord "i") in
  let u := key_event (ord "U") in
  exists s', run_from ([i; i; i] ++ [u; u]) None s = (Ok tt, s')
             /\ viewing s' "Smoking" (0 + (3 - 2)) ([] ++ pushed 0 1).
Proof.
  intros s i u.
  refine (proj1 (increments_then_undos s "Smoking" 0 [] [i; i; i] [u; u] None
                   _ _ _ _ _)).
  - unfold viewing. repeat split.
    exists [("Smoking", new_goal "t0")],
           [("counter", PInt 0); ("history", PList []);
            ("created_at", PStr "t0"); ("last_updated", PStr "t0")].
    repeat split.
  - lia.
  - repeat constructor.
  - repeat constructor.
  - simpl. lia.
Defined.

End GoalView.

(** *** A write that fails *)

Section SaveFailure.

Lemma run_from_raise (ev : event) (rest : list event) (l : option ui_state)
    (s s' : state) (e : exn) :
  run_iteration ev l s = (Raise e, s') ->
  run_from (ev :: rest) l s = (Raise e, s').
Proof. intros H. simpl. unfold bind. now rewrite H. Qed.




End SaveFailure.

(** *** Creating a goal under a name that exists *)

Section Create.

(** C5.  A submitted goal name that, once trimmed, is a key of the
    registry leaves the registry and the file unchanged, puts an error
    message naming it on the status line and leaves [current_state] as it
    is, [create_goal].  A goal name is not empty and holds no escape
    character: an entry that is empty or holds one is no submission but the
    cancellation of the entry, and no name that [handle_create_goal] has
    stored is of that kind. *)
Theorem create_duplicate_rejected (ev : event) (s : state) (d : dict) :
  textbox s = true -> current_state s = create_goal -> goals s = PDict d ->
  strip (ev_text ev) <> "" -> has_char ESC (strip (ev_text ev)) = false ->
  dict_mem d (strip (ev_text ev)) = true ->
  exists s', handle_create_goal ev s = (Ok tt, s')
             /\ goals s' = goals s /\ disk s' = disk s
             /\ current_state s' = create_goal
             /\ is_error s' = true
             /\ status_message s'
                = Some (Fmt "Goal '" (PStr (strip (ev_text ev))) "' already exists!").
Proof.
  intros Htb Hcs Hg Hne Hesc Hdup.
  unfold handle_create_goal. run_monad. rewrite Htb, Hesc.
  apply String.eqb_neq in Hne. rewrite Hne. cbn [negb orb]. cbv beta iota.
  rewrite Hg. cbn [contains]. rewrite Hdup. eexists; split; [reflexivity|].
  state_simpl. repeat split; auto.
Qed.

Lemma create_duplicate_rejected_witness :
  let s := mkState (PDict [("Smoking", new_goal "t0")]) None create_goal 0 true
                   None None 0 false CreateFrame Absent in
  exists s', handle_create_goal (text_event "  Smoking ") s = (Ok tt, s')
             /\ goals s' = goals s /\ disk s' = disk s
             /\ current_state s' = create_goal
             /\ is_error s' = true
             /\ status_message s'
                = Some (Fmt "Goal '" (PStr (strip "  Smoking ")) "' already exists!").
Proof.
  intros s.
  apply (create_duplicate_rejected (text_event "  Smoking ") s
           [("Smoking", new_goal "t0")]); try reflexivity.
  discriminate.
Defined.

End Create.

(** *** The JSON codec *)

Section Codec.

Local Open Scope string_scope.

Lemma append_assoc (a b c : string) : (a ++ b) ++ c = a ++ (b ++ c).
Proof. induction a; simpl; congruence. Qed.

Lemma append_nil_r (a : string) : a ++ "" = a.
Proof. induction a; simpl; congruence. Qed.

Lemma length_append (a b : string) :
  String.length (a ++ b) = (String.length a + String.length b)%nat.
Proof. induction a; simpl; congruence. Qed.

(** **** Strings *)

Lemma scanstring_escape_char (c : ascii) (t : string) :
  Json.scanstring (Json.escape_char c ++ t)
  = rbind (Json.scanstring t) (fun p => Ok (String c (fst p), snd p)).
Proof.
  destruct c as [[] [] [] [] [] [] [] []]; reflexivity.
Qed.

Lemma scanstring_escape (s rest : string) :
  Json.scanstring (Json.escape s ++ String Json.dquote rest) = Ok (s, rest).
Proof.
  induction s as [|c s IH]; simpl.
  - reflexivity.
  - rewrite append_assoc, scanstring_escape_char, IH. reflexivity.
Qed.

(** **** Integers *)

Lemma scan_digits_uint (u : Decimal.uint) (rest : string) :
  Json.starts_with_digit rest = false ->
  Json.scan_digits (DecimalString.NilEmpty.string_of_uint u ++ rest) = (u, rest).
Proof.
  intros Hr. induction u; simpl; try (rewrite IHu; reflexivity).
  destruct rest as [|c r]; [reflexivity|].
  simpl in *. unfold Json.is_digit in Hr.
  destruct (Json.digit_of c); [discriminate|reflexivity].
Qed.

Lemma to_uint_canonical (p : positive) :
  match Pos.to_uint p with
  | Decimal.Nil | Decimal.D0 _ => False
  | _ => True
  end.
Proof.
  assert (Hn : Decimal.unorm (Pos.to_uint p) = Pos.to_uint p).
  { rewrite <- (DecimalPos.Unsigned.to_of (Pos.to_uint p)).
    now rewrite DecimalPos.Unsigned.of_to. }
  pose proof (DecimalPos.Unsigned.to_uint_nonzero p) as Hz.
  destruct (Pos.to_uint p) as [|u|u|u|u|u|u|u|u|u|u] eqn:E; try exact I.
  - cbv in Hn. discriminate Hn.
  - rewrite DecimalFacts.unorm_D0 in Hn. unfold Decimal.unorm in Hn.
    destruct (Decimal.nzhead u) eqn:En;
      try (exfalso; apply (DecimalFacts.nzhead_nonzero u u); congruence);
      try discriminate Hn.
Qed.

Lemma delimited_ends_number (rest : string) :
  delimited rest = true ->
  Json.starts_with_digit rest = false
  /\ Json.has_frac rest = false /\ Json.has_exp rest = false.
Proof.
  destruct rest as [|c r]; [auto|]. simpl. intros H.
  apply orb_true_iff in H. destruct H as [H|H].
  - apply orb_true_iff in H. destruct H as [H|H];
      apply Ascii.eqb_eq in H; subst c; auto.
  - apply Ascii.eqb_eq in H; subst c; auto.
Qed.

Lemma parse_number_uint (u : Decimal.uint) (neg : bool) (rest : string) :
  match u with Decimal.Nil | Decimal.D0 _ => False | _ => True end ->
  delimited rest = true ->
  Json.parse_number
    ((if neg then "-" else "") ++ DecimalString.NilEmpty.string_of_uint u ++ rest)
  = Ok (PInt (Z.of_int (if neg then Decimal.Neg u else Decimal.Pos u)), rest).
Proof.
  intros Hu Hd.
  destruct (delimited_ends_number rest Hd) as (Hdig & Hfrac & Hexp).
  destruct u; try contradiction; destruct neg;
    unfold Json.parse_number; simpl;
    rewrite (scan_digits_uint u rest Hdig); simpl;
    rewrite Hfrac, Hexp; reflexivity.
Qed.

Lemma parse_number_int (n : Z) (rest : string) :
  delimited rest = true ->
  Json.parse_number (Json.dump_int n ++ rest) = Ok (PInt n, rest).
Proof.
  intros Hd. unfold Json.dump_int.
  rewrite <- (DecimalZ.of_to n) at 2.
  destruct n as [|p|p]; simpl Z.to_int.
  - destruct (delimited_ends_number rest Hd) as (_ & Hfrac & Hexp).
    unfold Json.parse_number. simpl. rewrite Hfrac, Hexp. reflexivity.
  - pose proof (to_uint_canonical p) as Hc.
    pose proof (parse_number_uint (Pos.to_uint p) false rest Hc Hd) as H.
    destruct (Pos.to_uint p); try contradiction; exact H.
  - pose proof (to_uint_canonical p) as Hc.
    pose proof (parse_number_uint (Pos.to_uint p) true rest Hc Hd) as H.
    destruct (Pos.to_uint p); try contradiction; exact H.
Qed.

Lemma parse_value_number (f : nat) (c : ascii) (t : string) :
  Json.is_digit c || Ascii.eqb c "-" = true ->
  Json.parse_value (S f) (String c t) = Json.parse_number (String c t).
Proof.
  intros H.
  destruct c as [[] [] [] [] [] [] [] []];
    try (vm_compute in H; discriminate H); reflexivity.
Qed.

Lemma dump_int_head (n : Z) :
  exists c t, Json.dump_int n = String c t
              /\ Json.is_digit c || Ascii.eqb c "-" = true.
Proof.
  unfold Json.dump_int. destruct n as [|p|p]; simpl Z.to_int.
  - exists "0"%char, "". auto.
  - pose proof (to_uint_canonical p) as Hc.
    destruct (Pos.to_uint p); try contradiction; eexists _, _; split;
      try reflexivity; reflexivity.
  - eexists _, _; split; reflexivity.
Qed.

Lemma parse_value_int (f : nat) (n : Z) (rest : string) :
  delimited rest = true ->
  Json.parse_value (S f) (Json.dump_int n ++ rest) = Ok (PInt n, rest).
Proof.
  intros Hd. rewrite <- (parse_number_int n rest Hd).
  destruct (dump_int_head n) as (c & t & -> & Hc).
  apply parse_value_number, Hc.
Qed.

(** **** The first character of an encoded value *)

Lemma dumps_starts (v : pyval) (t : string) :
  starts_value (Json.dumps v ++ t) = true.
Proof.
  destruct v as [|[]|n|s|l|d]; try reflexivity.
  simpl Json.dumps. destruct (dump_int_head n) as (c & r & -> & Hc).
  simpl. unfold value_start. apply orb_true_iff in Hc.
  destruct Hc as [-> | ->]; [reflexivity|]. now rewrite orb_true_r.
Qed.

Lemma starts_value_facts (s : string) :
  starts_value s = true ->
  Json.skip_ws s = s /\ Json.head_is "]" s = false /\ Json.head_is "}" s = false.
Proof.
  destruct s as [|c r]; [discriminate|]. simpl. intros H.
  destruct c as [[] [] [] [] [] [] [] []];
    try (vm_compute in H; discriminate H); repeat split.
Qed.

Lemma skip_space_value (s : string) :
  starts_value s = true -> Json.skip_ws (String " " s) = s.
Proof. intros H. simpl. apply starts_value_facts, H. Qed.

(** **** Arrays *)

Lemma join_starts (f : pyval -> string) (x : pyval) (l : list pyval) (t : string) :
  (forall v r, starts_value (f v ++ r) = true) ->
  starts_value (Json.join ", " (map f (x :: l)) ++ t) = true.
Proof.
  intros Hf. destruct l as [|y l]; simpl Json.join.
  - apply Hf.
  - rewrite append_assoc. apply Hf.
Qed.

Lemma parse_elems_roundtrip (l : list pyval) :
  Forall (fun x => well_formed x = true -> roundtrips x) l ->
  forallb well_formed l = true -> l <> [] ->
  forall fuel rest,
    (elems_weight l <= fuel)%nat -> delimited rest = true ->
    Json.parse_elems fuel (Json.join ", " (map Json.dumps l) ++ String "]" rest)
    = Ok (l, rest).
Proof.
  induction l as [|x l IH]; [congruence|].
  intros HF Hwf _ fuel rest Hfuel Hd.
  inversion HF as [|x' l' Hx HFl]; subst x' l'.
  simpl in Hwf. apply andb_true_iff in Hwf. destruct Hwf as [Hwx Hwl].
  specialize (Hx Hwx).
  destruct fuel as [|g]; [simpl in Hfuel; lia|].
  change (elems_weight (x :: l)) with (S (weight x + elems_weight l)) in Hfuel.
  destruct l as [|y l'].
  - simpl Json.join. cbn [Json.parse_elems].
    rewrite (Hx g (String "]" rest)); [|lia|reflexivity]. reflexivity.
  - change (Json.join ", " (map Json.dumps (x :: y :: l')))
      with (Json.dumps x ++ ", " ++ Json.join ", " (map Json.dumps (y :: l'))).
    rewrite append_assoc.
    change ((", " ++ Json.join ", " (map Json.dumps (y :: l'))) ++ String "]" rest)
      with (String "," (String " "
              (Json.join ", " (map Json.dumps (y :: l')) ++ String "]" rest))).
    cbn [Json.parse_elems].
    rewrite (Hx g _); [|lia|reflexivity].
    cbn [rbind snd fst].
    change (Json.skip_ws (String "," ?t)) with (String "," t).
    cbv beta iota.
    change (Ascii.eqb "," "]") with false. change (Ascii.eqb "," ",") with true.
    cbv beta iota.
    rewrite skip_space_value by (apply join_starts, dumps_starts).
    rewrite (IH HFl Hwl ltac:(discriminate) g rest); [reflexivity|lia|exact Hd].
Qed.

(** **** Objects *)

Lemma dump_member_shape (k : string) (v : pyval) (t : string) :
  dump_member (k, v) ++ t
  = String Json.dquote
      (Json.escape k ++
       String Json.dquote (String ":" (String " " (Json.dumps v ++ t)))).
Proof.
  unfold dump_member, Json.dump_str. cbn [fst snd append].
  rewrite !append_assoc. cbn [append]. reflexivity.
Qed.

Lemma dump_member_starts (kv : string * pyval) (t : string) :
  starts_value (dump_member kv ++ t) = true.
Proof. destruct kv as [k v]. rewrite dump_member_shape. reflexivity. Qed.

Lemma join_members_starts (kv : string * pyval) (d : dict) (t : string) :
  starts_value (Json.join ", " (map dump_member (kv :: d)) ++ t) = true.
Proof.
  destruct d as [|kv' d].
  - change (Json.join ", " (map dump_member [kv])) with (dump_member kv).
    apply dump_member_starts.
  - change (Json.join ", " (map dump_member (kv :: kv' :: d)))
      with (dump_member kv ++ ", " ++ Json.join ", " (map dump_member (kv' :: d))).
    rewrite append_assoc. apply dump_member_starts.
Qed.

Lemma parse_members_roundtrip (d : dict) :
  Forall (fun kv => well_formed (snd kv) = true -> roundtrips (snd kv)) d ->
  forallb (fun kv => well_formed (snd kv)) d = true -> d <> [] ->
  forall fuel rest,
    (members_weight d <= fuel)%nat -> delimited rest = true ->
    Json.parse_members fuel (Json.join ", " (map dump_member d) ++ String "}" rest)
    = Ok (d, rest).
Proof.
  induction d as [|[k v] d IH]; [congruence|].
  intros HF Hwf _ fuel rest Hfuel Hd.
  inversion HF as [|kv' d' Hx HFd]; subst kv' d'.
  simpl in Hwf. apply andb_true_iff in Hwf. destruct Hwf as [Hwx Hwd].
  specialize (Hx Hwx). cbn [snd] in Hx.
  destruct fuel as [|g]; [simpl in Hfuel; lia|].
  change (members_weight ((k, v) :: d))
    with (S (weight v + members_weight d)) in Hfuel.
  destruct d as [|kv d'].
  - change (Json.join ", " (map dump_member [(k, v)])) with (dump_member (k, v)).
    rewrite dump_member_shape. cbn [Json.parse_members].
    rewrite Ascii.eqb_refl. cbn [negb]. rewrite scanstring_escape.
    cbn [rbind snd fst].
    change (Json.skip_ws (String ":" ?t)) with (String ":" t). cbv beta iota.
    change (Ascii.eqb ":" ":") with true. cbn [negb].
    rewrite skip_space_value by apply dumps_starts.
    rewrite (Hx g (String "}" rest)); [|lia|reflexivity]. reflexivity.
  - change (Json.join ", " (map dump_member ((k, v) :: kv :: d')))
      with (dump_member (k, v) ++ ", " ++ Json.join ", " (map dump_member (kv :: d'))).
    rewrite append_assoc, dump_member_shape.
    change ((", " ++ Json.join ", " (map dump_member (kv :: d'))) ++ String "}" rest)
      with (String "," (String " "
              (Json.join ", " (map dump_member (kv :: d')) ++ String "}" rest))).
    cbn [Json.parse_members].
    rewrite Ascii.eqb_refl. cbn [negb]. rewrite scanstring_escape.
    cbn [rbind snd fst].
    change (Json.skip_ws (String ":" ?t)) with (String ":" t). cbv beta iota.
    change (Ascii.eqb ":" ":") with true. cbn [negb].
    rewrite skip_space_value by apply dumps_starts.
    rewrite (Hx g _); [|lia|reflexivity].
    cbn [rbind snd fst].
    change (Json.skip_ws (String "," ?t)) with (String "," t). cbv beta iota.
    change (Ascii.eqb "," "}") with false. change (Ascii.eqb "," ",") with true.
    cbv beta iota.
    rewrite skip_space_value by apply join_members_starts.
    rewrite (IH HFd Hwd ltac:(discriminate) g rest); [reflexivity|lia|exact Hd].
Qed.

(** [dict(pairs)] on pairs without a repeated key is the list itself. *)

Lemma dict_get_app (a b : dict) (k : string) :
  dict_get (a ++ b)%list k
  = match dict_get a k with Some v => Some v | None => dict_get b k end.
Proof.
  induction a as [|[k' v'] a IH]; simpl; [reflexivity|].
  destruct (String.eqb k k'); auto.
Qed.

Lemma dict_set_fresh (a : dict) (k : string) (v : pyval) :
  dict_mem a k = false -> dict_set a k v = (a ++ [(k, v)])%list.
Proof.
  unfold dict_mem. induction a as [|[k' v'] a IH]; simpl; [reflexivity|].
  destruct (String.eqb k k'); [discriminate|]. intros H. now rewrite IH.
Qed.

Lemma dict_of_pairs_acc (l acc : dict) :
  nodupb (keys l) = true ->
  (forall kv, In kv l -> dict_mem acc (fst kv) = false) ->
  fold_left (fun d kv => dict_set d (fst kv) (snd kv)) l acc = (acc ++ l)%list.
Proof.
  revert acc. induction l as [|[k v] l IH]; intros acc Hnd Hfresh; simpl.
  - now rewrite app_nil_r.
  - simpl in Hnd. apply andb_true_iff in Hnd. destruct Hnd as [Hk Hnd].
    apply negb_true_iff in Hk.
    rewrite dict_set_fresh by (apply (Hfresh (k, v)); now left).
    rewrite IH; [now rewrite <- app_assoc|exact Hnd|].
    intros [k' v'] Hin. unfold dict_mem. rewrite dict_get_app.
    pose proof (Hfresh (k', v') (or_intror Hin)) as Hacc.
    unfold dict_mem in Hacc. cbn [fst] in *.
    destruct (dict_get acc k'); [discriminate|].
    simpl. destruct (String.eqb_spec k' k) as [->|]; [|reflexivity].
    exfalso. assert (existsb (String.eqb k) (keys l) = true); [|congruence].
    apply existsb_exists. exists k. split; [|apply String.eqb_refl].
    unfold keys. change k with (fst (k, v')). now apply in_map.
Qed.

Lemma dict_of_pairs_nodup (d : dict) :
  nodupb (keys d) = true -> Json.dict_of_pairs d = d.
Proof.
  intros H. unfold Json.dict_of_pairs.
  rewrite dict_of_pairs_acc; [reflexivity|exact H|reflexivity].
Qed.

(** **** Values *)

Lemma dumps_roundtrips (v : pyval) : well_formed v = true -> roundtrips v.
Proof.
  induction v using pyval_induction; intros Hwf fuel rest Hfuel Hd;
    (destruct fuel as [|f]; [simpl in Hfuel; lia|]).
  - destruct rest; reflexivity.
  - destruct b, rest; reflexivity.
  - apply parse_value_int, Hd.
  - change (Json.dumps (PStr s) ++ rest)
      with (String Json.dquote ((Json.escape s ++ String Json.dquote "") ++ rest)).
    rewrite append_assoc. cbn [append Json.parse_value].
    rewrite Ascii.eqb_refl, scanstring_escape. reflexivity.
  - destruct l as [|x l]; [reflexivity|].
    change (Json.dumps (PList (x :: l)) ++ rest)
      with (String "[" ((Json.join ", " (map Json.dumps (x :: l)) ++ "]") ++ rest)).
    rewrite append_assoc. cbn [append Json.parse_value].
    change (Ascii.eqb "[" Json.dquote) with false.
    change (Ascii.eqb "[" "{") with false.
    change (Ascii.eqb "[" "[") with true. cbv beta iota zeta.
    destruct (starts_value_facts _
                (join_starts Json.dumps x l (String "]" rest) dumps_starts))
      as (Hs & Hb & _).
    rewrite Hs, Hb.
    change (weight (PList (x :: l))) with (S (elems_weight (x :: l))) in Hfuel.
    rewrite parse_elems_roundtrip; auto; [discriminate|lia].
  - destruct d as [|kv d]; [reflexivity|].
    change (Json.dumps (PDict (kv :: d)) ++ rest)
      with (String "{" ((Json.join ", " (map dump_member (kv :: d)) ++ "}") ++ rest)).
    rewrite append_assoc. cbn [append Json.parse_value].
    change (Ascii.eqb "{" Json.dquote) with false.
    change (Ascii.eqb "{" "{") with true. cbv beta iota zeta.
    destruct (starts_value_facts _ (join_members_starts kv d (String "}" rest)))
      as (Hs & _ & Hb).
    rewrite Hs, Hb.
    change (weight (PDict (kv :: d))) with (S (members_weight (kv :: d))) in Hfuel.
    change (well_formed (PDict (kv :: d)))
      with (nodupb (keys (kv :: d))
            && forallb (fun kv => well_formed (snd kv)) (kv :: d)) in Hwf.
    apply andb_true_iff in Hwf. destruct Hwf as [Hnd Hwf].
    rewrite parse_members_roundtrip; auto; [|discriminate|lia].
    cbn [rbind fst snd]. now rewrite dict_of_pairs_nodup.
Qed.

(** The decoder's budget in [loads] covers every encoded value. *)

Lemma join_length_bound {A} (f : A -> string) (w : A -> nat) (l : list A) :
  Forall (fun x => (w x <= String.length (f x))%nat) l ->
  (fold_right (fun x n => S (w x + n)) O l
   <= String.length (Json.join ", " (map f l)) + 1)%nat.
Proof.
  induction 1 as [|x l Hx _ IH]; [simpl; lia|].
  destruct l as [|y l].
  - simpl. lia.
  - change (Json.join ", " (map f (x :: y :: l)))
      with (f x ++ ", " ++ Json.join ", " (map f (y :: l))).
    rewrite !length_append.
    change (fold_right (fun x n => S (w x + n)) O (x :: y :: l))
      with (S (w x + fold_right (fun x n => S (w x + n)) O (y :: l))).
    change (String.length ", ") with 2%nat. lia.
Qed.

Lemma weight_le_length (v : pyval) :
  (weight v <= String.length (Json.dumps v))%nat.
Proof.
  induction v using pyval_induction.
  - simpl. lia.
  - destruct b; simpl; lia.
  - change (Json.dumps (PInt n)) with (Json.dump_int n).
    destruct (dump_int_head n) as (c & t & -> & _). simpl. lia.
  - simpl. lia.
  - change (Json.dumps (PList l))
      with ("[" ++ Json.join ", " (map Json.dumps l) ++ "]").
    rewrite !length_append.
    change (String.length "[") with 1%nat. change (String.length "]") with 1%nat.
    pose proof (join_length_bound Json.dumps weight l H).
    change (weight (PList l)) with (S (elems_weight l)). unfold elems_weight. lia.
  - change (Json.dumps (PDict d))
      with ("{" ++ Json.join ", " (map dump_member d) ++ "}").
    rewrite !length_append.
    change (String.length "{") with 1%nat. change (String.length "}") with 1%nat.
    assert (Hm : Forall (fun kv => (weight (snd kv) <= String.length (dump_member kv))%nat) d).
    { eapply Forall_impl; [|exact H]. intros [k x] Hx. cbn [snd] in *.
      unfold dump_member. rewrite !length_append. cbn [snd]. lia. }
    pose proof (join_length_bound dump_member (fun kv => weight (snd kv)) d Hm).
    change (weight (PDict d)) with (S (members_weight d)). unfold members_weight. lia.
Qed.

(** Decoding what the encoder wrote gives the value back. *)
Lemma loads_dumps (v : pyval) :
  well_formed v = true -> Json.loads (Json.dumps v) = Ok v.
Proof.
  intros Hwf. unfold Json.loads.
  pose proof (dumps_starts v "") as Hs. rewrite append_nil_r in Hs.
  destruct (starts_value_facts _ Hs) as (-> & _).
  rewrite <- (append_nil_r (Json.dumps v)) at 2.
  rewrite (dumps_roundtrips v Hwf); [reflexivity| |reflexivity].
  pose proof (weight_le_length v). lia.
Qed.

End Codec.

(** *** Saving, then loading *)

Section RoundTrip.

Lemma valid_goal_well_formed (v : pyval) :
  valid_goal v = true -> well_formed v = true.
Proof.
  destruct v as [| | | | |r]; try discriminate. simpl.
  intros H. repeat (apply andb_true_iff in H; destruct H as [H ?]).
  rewrite H. simpl. rewrite forallb_forall in *.
  intros [k x] Hin. specialize (H4 (k, x) Hin). cbn [snd] in *.
  destruct x; try reflexivity; try discriminate H4.
  simpl in *. rewrite forallb_forall in *. intros y Hy.
  specialize (H4 y Hy). destruct y; try discriminate; reflexivity.
Qed.

Lemma valid_registry_well_formed (g : pyval) :
  valid_registry g = true -> well_formed g = true.
Proof.
  destruct g as [| | | | |d]; try discriminate. simpl.
  intros H. apply andb_true_iff in H. destruct H as [-> H]. simpl.
  rewrite forallb_forall in *. intros kv Hin.
  apply valid_goal_well_formed, H, Hin.
Qed.

(** Whatever [self.goals] holds, as long as no dictionary in it repeats a
    key: a successful [save_data] followed by [load_data] in a fresh
    process restores it. *)
Lemma save_then_load_well_formed (ev : event) (s : state) :
  ev_disk_ok ev = true -> well_formed (goals s) = true ->
  exists s1, save_data ev s = (Ok tt, s1) /\ goals s1 = goals s
    /\ exists s2, load_data (init_state (disk s1)) = (Ok tt, s2)
                  /\ goals s2 = goals s.
Proof.
  intros Hio Hwf. unfold save_data. rewrite Hio. run_monad.
  eexists; split; [reflexivity|]. split; [reflexivity|].
  cbn [disk set_disk].
  assert (Hl : Json.loads (Json.dumps (PDict [("goals", goals s)]))
               = Ok (PDict [("goals", goals s)])).
  { apply loads_dumps. simpl. now rewrite Hwf. }
  rewrite (load_object _ _ Hl). cbn [dict_get String.eqb Ascii.eqb Bool.eqb].
  eexists; split; [reflexivity|].
  destruct (truthy (goals s)); reflexivity.
Qed.

(** C8.  For every valid registry held in memory, a successful save
    followed by a load in a fresh process gives an equal registry: the same
    names in the same order, mapped to the same records.  The integers of
    the registry are those that the interpreter prints and parses, of
    [Json.max_str_digits] digits at most: the range on which the codec of
    this file is that of CPython. *)
Theorem save_then_load_roundtrip (ev : event) (s : state) :
  ev_disk_ok ev = true -> valid_registry (goals s) = true ->
  Json.ints_in_range (goals s) = true ->
  exists s1, save_data ev s = (Ok tt, s1) /\ goals s1 = goals s
    /\ exists s2, load_data (init_state (disk s1)) = (Ok tt, s2)
                  /\ goals s2 = goals s.
Proof.
  intros Hio Hv _. apply save_then_load_well_formed; [exact Hio|].
  apply valid_registry_well_formed, Hv.
Qed.

Lemma save_then_load_roundtrip_witness :
  let g := PDict
    [("Smoking", PDict [("counter", PInt 2); ("history", PList [PInt 0; PInt 1]);
                        ("created_at", PStr "2024-01-01 08:00:00");
                        ("last_updated", PStr "2024-01-02 21:30:00")]);
     ("Late night snacks", new_goal "2024-01-03 10:00:00")] in
  let s := mkState g None menu 0 true None None 0 false Blank Absent in
  exists s1, save_data (key_event (ord "i")) s = (Ok tt, s1) /\ goals s1 = goals s
    /\ exists s2, load_data (init_state (disk s1)) = (Ok tt, s2)
                  /\ goals s2 = goals s.
Proof.
  intros g s.
  apply (save_then_load_roundtrip (key_event (ord "i")) s); reflexivity.
Defined.

End RoundTrip.

(** *** The decoder's budget *)

Section Budget.

Lemma skip_ws_length (s : string) :
  (String.length (Json.skip_ws s) <= String.length s)%nat.
Proof.
  induction s as [|c r IH]; simpl; [lia|].
  destruct (Json.is_ws c); simpl; lia.
Qed.

Lemma drop_length (n : nat) (s : string) :
  (String.length (Json.drop n s) <= String.length s)%nat.
Proof.
  revert s. induction n as [|n IH]; intros [|c r]; simpl; try lia.
  specialize (IH r). lia.
Qed.

Lemma fine_split {A} (n : nat) (r : res (A * string)) :
  fine n r <-> lands_below n r /\ within_budget r.
Proof.
  unfold fine, lands_below, within_budget. destruct r as [p|e]; split.
  - intros H. split; [exact H|discriminate].
  - tauto.
  - intros H. split; [exact I|congruence].
  - intros [_ H] ->. now apply H.
Qed.

Lemma fine_bind_cons (n m : nat) (r : res (string * string)) (ch : ascii) :
  fine m r -> (m <= n)%nat ->
  fine n (rbind r (fun p => Ok (String ch (fst p), snd p))).
Proof.
  destruct r as [[x rest]|e]; simpl; [lia|auto].
Qed.

Lemma decode_uXXXX_budget (a b c d : ascii) :
  Json.decode_uXXXX a b c d <> Raise RecursionError.
Proof.
  unfold Json.decode_uXXXX.
  destruct (Json.hex_val a), (Json.hex_val b), (Json.hex_val c), (Json.hex_val d);
    try discriminate.
  destruct (_ && _); discriminate.
Qed.

Lemma scanstring_fine (n : nat) :
  forall s, (String.length s <= n)%nat ->
            fine (String.length s) (Json.scanstring s).
Proof.
  induction n as [|n IH]; intros [|c r] Hs; simpl in Hs; try lia;
    try (simpl; discriminate).
  cbn [Json.scanstring].
  destruct (Ascii.eqb c Json.dquote); [simpl; lia|].
  destruct (Ascii.eqb c Json.backslash).
  - destruct r as [|e r1]; [simpl; discriminate|].
    destruct (Ascii.eqb e "u").
    + destruct r1 as [|h3 [|h2 [|h1 [|h0 r2]]]]; try (simpl; discriminate).
      pose proof (decode_uXXXX_budget h3 h2 h1 h0) as Hd.
      destruct (Json.decode_uXXXX h3 h2 h1 h0) as [ch|e0];
        [|simpl; congruence].
      cbn [rbind]. eapply fine_bind_cons; [apply IH|]; simpl in *; lia.
    + destruct (Json.unescape e); [|simpl; discriminate].
      eapply fine_bind_cons; [apply IH|]; simpl in *; lia.
  - destruct (nat_of_ascii c <? 32)%nat; [simpl; discriminate|].
    eapply fine_bind_cons; [apply IH|]; simpl in *; lia.
Qed.

Lemma scan_digits_length (s : string) :
  (String.length (snd (Json.scan_digits s)) <= String.length s)%nat.
Proof.
  induction s as [|c r IH]; simpl; [lia|].
  destruct (Json.digit_of c); simpl; lia.
Qed.

Lemma match_integer_length (s : string) (u : Decimal.uint) (rest : string) :
  Json.match_integer s = Some (u, rest) ->
  (String.length rest < String.length s)%nat.
Proof.
  destruct s as [|c r]; [discriminate|]. unfold Json.match_integer.
  destruct (Ascii.eqb c "0").
  - intros H; inversion H; subst. simpl. lia.
  - unfold Json.is_digit. simpl Json.scan_digits.
    destruct (Json.digit_of c); [|discriminate].
    intros H; inversion H; subst. simpl.
    pose proof (scan_digits_length r). lia.
Qed.

Lemma parse_number_fine (s : string) :
  fine (String.length s) (Json.parse_number s).
Proof.
  unfold Json.parse_number.
  set (ns := match s with
             | String c r => if Ascii.eqb c "-" then (true, r) else (false, s)
             | EmptyString => (false, s)
             end).
  assert (Hns : (String.length (snd ns) <= String.length s)%nat).
  { subst ns. destruct s as [|c r]; simpl; [lia|].
    destruct (Ascii.eqb c "-"); simpl; lia. }
  destruct ns as [neg s1]. cbn [snd] in Hns.
  destruct (Json.match_integer s1) as [[u rest]|] eqn:E.
  - apply match_integer_length in E.
    destruct (_ || _); simpl; [discriminate|lia].
  - destruct (_ || _); simpl; discriminate.
Qed.

Lemma fine_fine_if {A} (b : Prop) (n m : nat) (r : res (A * string)) :
  fine n r -> (n <= m)%nat -> fine_if b m r.
Proof. destruct r; simpl; [lia|auto]. Qed.

Lemma fine_if_bind {A B} (b b' : Prop) (n m : nat) (r : res (A * string))
    (k : A * string -> res (B * string)) :
  fine_if b n r -> (b' -> b) ->
  (forall p, (String.length (snd p) < n)%nat -> fine_if b' m (k p)) ->
  fine_if b' m (rbind r k).
Proof. destruct r; simpl; auto. Qed.

Lemma skip_ws_cons (s : string) (c : ascii) (r : string) :
  Json.skip_ws s = String c r -> (String.length r < String.length s)%nat.
Proof.
  intros H. pose proof (skip_ws_length s) as Hl. rewrite H in Hl. simpl in Hl. lia.
Qed.

(** The three mutually recursive functions, by induction on the budget. *)
Lemma decoder_budget (fuel : nat) :
  forall s,
    fine_if (2 * String.length s + 1 <= fuel)%nat (String.length s)
            (Json.parse_value fuel s)
    /\ fine_if (2 * String.length s + 2 <= fuel)%nat (String.length s)
               (Json.parse_elems fuel s)
    /\ fine_if (2 * String.length s + 2 <= fuel)%nat (String.length s)
               (Json.parse_members fuel s).
Proof.
  induction fuel as [|f IH]; intros s.
  - simpl. repeat split; intros; lia.
  - repeat split.
    + (* parse_value *)
      cbn [Json.parse_value]. destruct s as [|c r]; [simpl; discriminate|].
      pose proof (skip_ws_length r) as Hw.
      destruct (Ascii.eqb c Json.dquote).
      { eapply fine_if_bind with (b := True) (n := String.length r); auto.
        - eapply fine_fine_if; [apply (scanstring_fine _ r (le_n _))|lia].
        - intros p Hp. simpl. lia. }
      destruct (Ascii.eqb c "{").
      { cbv zeta. destruct (Json.head_is "}" (Json.skip_ws r)).
        - simpl. pose proof (drop_length 1 (Json.skip_ws r)). simpl in *. lia.
        - eapply fine_if_bind; [apply (IH (Json.skip_ws r))| |].
          + simpl. lia.
          + intros p Hp. simpl. lia. }
      destruct (Ascii.eqb c "[").
      { cbv zeta. destruct (Json.head_is "]" (Json.skip_ws r)).
        - simpl. pose proof (drop_length 1 (Json.skip_ws r)). simpl in *. lia.
        - eapply fine_if_bind; [apply (IH (Json.skip_ws r))| |].
          + simpl. lia.
          + intros p Hp. simpl. lia. }
      destruct (String.prefix "null" (String c r)).
      { simpl. pose proof (drop_length 3 r). simpl in *. lia. }
      destruct (String.prefix "true" (String c r)).
      { simpl. pose proof (drop_length 3 r). simpl in *. lia. }
      destruct (String.prefix "false" (String c r)).
      { simpl. pose proof (drop_length 4 r). simpl in *. lia. }
      eapply fine_fine_if; [apply parse_number_fine|lia].
    + (* parse_elems *)
      cbn [Json.parse_elems].
      eapply fine_if_bind; [apply (IH s)|lia|].
      intros p Hp. destruct (Json.skip_ws (snd p)) as [|c r] eqn:E;
        [simpl; discriminate|].
      apply skip_ws_cons in E.
      destruct (Ascii.eqb c "]"); [simpl; lia|].
      destruct (Ascii.eqb c ","); [|simpl; discriminate].
      pose proof (skip_ws_length r) as Hw.
      eapply fine_if_bind; [apply (IH (Json.skip_ws r))|lia|].
      intros q Hq. simpl. lia.
    + (* parse_members *)
      cbn [Json.parse_members]. destruct s as [|c r]; [simpl; discriminate|].
      destruct (negb (Ascii.eqb c Json.dquote)); [simpl; discriminate|].
      eapply fine_if_bind with (b := True) (n := String.length r); auto.
      { eapply fine_fine_if; [apply (scanstring_fine _ r (le_n _))|lia]. }
      intros kp Hkp. destruct (Json.skip_ws (snd kp)) as [|c1 r1] eqn:E1;
        [simpl; discriminate|].
      apply skip_ws_cons in E1.
      destruct (negb (Ascii.eqb c1 ":")); [simpl; discriminate|].
      pose proof (skip_ws_length r1) as Hw1.
      eapply fine_if_bind; [apply (IH (Json.skip_ws r1))|simpl; lia|].
      intros vp Hvp. destruct (Json.skip_ws (snd vp)) as [|c2 r2] eqn:E2;
        [simpl; discriminate|].
      apply skip_ws_cons in E2.
      destruct (Ascii.eqb c2 "}"); [simpl; lia|].
      destruct (Ascii.eqb c2 ","); [|simpl; discriminate].
      pose proof (skip_ws_length r2) as Hw2.
      eapply fine_if_bind; [apply (IH (Json.skip_ws r2))|simpl; lia|].
      intros q Hq. simpl. lia.
Qed.

(** [Json.loads] never uses up the fuel it gives the decoder: whatever the
    text, the result is a value, [JSONDecodeError], or [OutOfModel].  This
    is a fact about the definition, which is total on nesting; it says
    nothing about the recursion limit of the interpreter. *)
Lemma loads_within_budget (text : string) :
  within_budget (Json.loads text).
Proof.
  unfold Json.loads, within_budget.
  pose proof (skip_ws_length text) as Hw.
  destruct (decoder_budget (2 * String.length text + 1) (Json.skip_ws text))
    as [H _].
  destruct (Json.parse_value _ _) as [p|e]; simpl in *.
  - destruct (Json.skip_ws (snd p)); discriminate.
  - intros Heq. inversion Heq; subst. apply H; [lia|reflexivity].
Qed.

End Budget.

(** *** Which keys can end the process *)

Section Safety.

Lemma dict_get_In (d : dict) (k : string) (v : pyval) :
  dict_get d k = Some v -> In (k, v) d.
Proof.
  induction d as [|[k' v'] d IH]; simpl; [discriminate|].
  destruct (String.eqb_spec k k') as [->|].
  - intros H; inversion H; auto.
  - auto.
Qed.

Lemma in_keys_mem (d : dict) (k : string) :
  In k (keys d) -> dict_mem d k = true.
Proof.
  unfold dict_mem. induction d as [|[k' v'] d IH]; simpl; [tauto|].
  destruct (String.eqb_spec k k'); [reflexivity|].
  intros [H|H]; [congruence|auto].
Qed.

Lemma dict_mem_record (d : dict) (k : string) :
  Forall (fun kv => record_ok (snd kv)) d -> dict_mem d k = true ->
  exists v, dict_get d k = Some v /\ record_ok v.
Proof.
  intros HF Hm. unfold dict_mem in Hm.
  destruct (dict_get d k) as [v|] eqn:E; [|discriminate].
  exists v. split; [reflexivity|].
  rewrite Forall_forall in HF. apply (HF (k, v)), dict_get_In, E.
Qed.

Lemma Forall_dict_set (P : pyval -> Prop) (d : dict) (k : string) (v : pyval) :
  Forall (fun kv => P (snd kv)) d -> P v ->
  Forall (fun kv => P (snd kv)) (dict_set d k v).
Proof.
  intros HF Hv. induction HF as [|[k' v'] d Hx HF' IH]; simpl.
  - repeat constructor. exact Hv.
  - destruct (String.eqb k k'); constructor; simpl; auto.
Qed.

Lemma Forall_dict_del (P : pyval -> Prop) (d : dict) (k : string) :
  Forall (fun kv => P (snd kv)) d ->
  Forall (fun kv => P (snd kv)) (dict_del d k).
Proof.
  intros HF. induction HF as [|[k' v'] d Hx HF' IH]; simpl.
  - constructor.
  - destruct (String.eqb k k'); [exact HF'|constructor; auto].
Qed.

Lemma dict_set_length (d : dict) (k : string) (v : pyval) :
  List.length (dict_set d k v)
  = if dict_mem d k then List.length d else S (List.length d).
Proof.
  unfold dict_mem. induction d as [|[k' v'] d IH]; simpl; [reflexivity|].
  destruct (String.eqb k k'); simpl; [reflexivity|].
  rewrite IH. destruct (dict_get d k); reflexivity.
Qed.

Lemma dict_del_length (d : dict) (k : string) :
  (List.length (dict_del d k) <= List.length d)%nat.
Proof.
  induction d as [|[k' v'] d IH]; simpl; [lia|].
  destruct (String.eqb k k'); simpl; lia.
Qed.

Lemma dict_mem_set_other (d : dict) (k k' : string) (v : pyval) :
  dict_mem d k' = true -> dict_mem (dict_set d k v) k' = true.
Proof.
  unfold dict_mem. destruct (String.eqb_spec k' k) as [->|Hne].
  - now rewrite dict_get_set_same.
  - now rewrite dict_get_set_other.
Qed.

(** A Python index between [-len] and [len - 1] selects an element. *)
Lemma list_index_wrap {A} (l : list A) (i : Z) :
  - Z.of_nat (List.length l) <= i < Z.of_nat (List.length l) ->
  exists a, list_index l i = Ok a /\ In a l.
Proof.
  intros H. unfold list_index.
  set (j := if i <? 0 then i + Z.of_nat (List.length l) else i).
  assert (Hj : 0 <= j < Z.of_nat (List.length l)).
  { subst j. destruct (Z.ltb_spec i 0); lia. }
  destruct (Z.ltb_spec j 0); [lia|].
  destruct (Z.leb_spec (Z.of_nat (List.length l)) j); [lia|]. simpl.
  destruct (nth_error l (Z.to_nat j)) eqn:E.
  - exists a. split; [reflexivity|]. eapply nth_error_In, E.
  - apply nth_error_None in E. lia.
Qed.

Lemma menu_rows_ok (d : dict) (ks : list string) :
  Forall (fun kv => record_ok (snd kv)) d ->
  (forall k, In k ks -> dict_mem d k = true) ->
  exists rows, menu_rows (PDict d) ks = Ok rows.
Proof.
  intros HF. induction ks as [|k ks IH]; intros Hks; simpl.
  - eauto.
  - destruct (dict_mem_record d k HF (Hks k (or_introl eq_refl)))
      as (v & Hg & rec & c & hs & -> & Hc & _).
    rewrite Hg. simpl. rewrite Hc. simpl.
    destruct IH as [rows ->]; [intros; apply Hks; now right|].
    simpl. eauto.
Qed.



Lemma list_last_cases {A} (l : list A) :
  l = [] \/ exists l' x, l = (l' ++ [x])%list.
Proof.
  destruct l as [|a l]; [now left|]. right.
  destruct (exists_last (l := a :: l)) as (l' & x & E); [discriminate|eauto].
Qed.

Lemma app_ok_record (s : state) :
  app_ok s -> current_state s = view_goal ->
  exists d name rec c hs,
    goals s = PDict d /\ current_goal s = Some name
    /\ dict_get d name = Some (PDict rec)
    /\ dict_get rec "counter" = Some (PInt c)
    /\ dict_get rec "history" = Some (PList (map PInt hs))
    /\ Forall (fun kv => record_ok (snd kv)) d
    /\ -1 <= selected_index s < Z.max 1 (Z.of_nat (List.length d)).
Proof.
  intros (d & Hg & HF & Hi & Hst) Hcs. rewrite Hcs in Hst.
  destruct Hst as (name & Hc & Hm).
  destruct (dict_mem_record d name HF Hm) as (v & Hv & rec & c & hs & -> & Hcnt & Hh).
  exists d, name, rec, c, hs. auto 10.
Qed.

(** The registry with the record of [name] replaced by a good record. *)
Lemma app_ok_update (s s' : state) (d : dict) (name : string) (rec' : dict)
    (c' : Z) (hs' : list Z) :
  goals s = PDict d -> Forall (fun kv => record_ok (snd kv)) d ->
  dict_mem d name = true ->
  -1 <= selected_index s < Z.max 1 (Z.of_nat (List.length d)) ->
  dict_get rec' "counter" = Some (PInt c') ->
  dict_get rec' "history" = Some (PList (map PInt hs')) ->
  goals s' = PDict (dict_set d name (PDict rec')) ->
  selected_index s' = selected_index s ->
  current_state s' = view_goal -> current_goal s' = Some name ->
  app_ok s'.
Proof.
  intros Hg HF Hm Hi Hc Hh Hg' Hi' Hcs' Hcg'.
  exists (dict_set d name (PDict rec')). rewrite Hi', Hcs'.
  repeat split; auto.
  - apply Forall_dict_set; [exact HF|]. exists rec', c', hs'. auto.
  - lia.
  - rewrite dict_set_length, Hm. lia.
  - exists name. split; [exact Hcg'|apply dict_set_mem].
Qed.




(** The fields that [app_ok] reads. *)
Lemma app_ok_frame (s s' : state) :
  goals s' = goals s -> selected_index s' = selected_index s ->
  current_state s' = current_state s -> current_goal s' = current_goal s ->
  goal_to_delete s' = goal_to_delete s ->
  app_ok s -> app_ok s'.
Proof. unfold app_ok. intros -> -> -> -> ->. auto. Qed.

Lemma safe_outcome_frame {A} (ev : event) (s s' : state) (r : res A * state) :
  goals s' = goals s -> current_state s' = current_state s ->
  safe_outcome ev s' r -> safe_outcome ev s r.
Proof. unfold safe_outcome. intros -> ->. auto. Qed.

(** Drawing never fails in a state that is [app_ok]. *)
Lemma draw_safe (s : state) :
  app_ok s ->
  exists f tb,
    match current_state s with
    | menu => draw_menu
    | view_goal => draw_goal
    | create_goal => draw_create_goal
    | delete_confirm => draw_delete_confirm
    end s = (Ok tt, set_content_win f (set_textbox tb s))
    /\ (current_state s = create_goal -> tb = true).
Proof.
  intros Hok. destruct (current_state s) eqn:Hcs.
  - destruct Hok as (d & Hg & HF & Hi & _).
    unfold draw_menu. run_monad. rewrite Hg. cbn [truthy py_keys].
    destruct d as [|kv d'].
    + exists NoGoalsFrame, (textbox s). split; [|discriminate].
      destruct s; reflexivity.
    + destruct (menu_rows_ok (kv :: d') (keys (kv :: d')) HF) as [rows Hr];
        [intros k Hk; apply in_keys_mem, Hk|].
      rewrite Hr. eexists _, (textbox s). split; [|discriminate].
      destruct s; reflexivity.
  - destruct (app_ok_record s Hok Hcs)
      as (d & name & rec & c & hs & Hg & Hcg & Hn & Hcnt & Hh & _).
    destruct (draw_goal_viewing s name c (map PInt hs)) as [f Hd].
    { unfold viewing. repeat split; auto. exists d, rec. auto. }
    exists f, (textbox s). split; [|discriminate]. rewrite Hd.
    destruct s; reflexivity.
  - exists CreateFrame, true. split; [reflexivity|auto].
  - eexists _, (textbox s). split; [|discriminate].
    unfold draw_delete_confirm. run_monad. destruct s; reflexivity.
Qed.



Lemma run_iteration_dispatch (ev : event) (last : option ui_state) (s : state) :
  run_iteration ev last s
  = let sa := if message_truthy (status_message s)
                 && (ev_clock ev - status_time s >? 3)
              then set_status_message None s else s in
    let cs := current_state sa in
    let h := match cs with
             | menu => handle_menu_input ev
             | view_goal => handle_goal_input ev
             | create_goal => handle_create_goal ev
             | delete_confirm => handle_delete_confirm ev
             end in
    let l' := fun l => match cs with create_goal => None | _ => l end in
    if last_state_differs cs last || ui_state_eqb cs menu then
      match match cs with
            | menu => draw_menu
            | view_goal => draw_goal
            | create_goal => draw_create_goal
            | delete_confirm => draw_delete_confirm
            end sa with
      | (Ok _, sd) => bind h (fun _ => ret (l' (Some cs))) sd
      | (Raise e, sd) => (Raise e, sd)
      end
    else bind h (fun _ => ret (l' last)) sa.
Proof.
  unfold run_iteration. cbv [bind gets ret modify].
  destruct (message_truthy (status_message s) && (ev_clock ev - status_time s >? 3));
    cbv zeta beta iota;
    (match goal with
     | |- context [last_state_differs (current_state ?sa) last] =>
         destruct (current_state sa);
         destruct (last_state_differs _ last || ui_state_eqb _ menu);
         try reflexivity;
         match goal with
         | |- context [?draw sa] =>
             match type of draw with M unit =>
               destruct (draw sa) as [[u|e] sd]; reflexivity
             end
         end
     end).
Qed.



Lemma int_list_map (l : list pyval) :
  forallb is_int l = true -> exists hs, l = map PInt hs.
Proof.
  induction l as [|x l IH]; simpl; [exists []; reflexivity|].
  intros H. apply andb_true_iff in H. destruct H as [Hx Hl].
  destruct x; try discriminate. destruct (IH Hl) as [hs ->].
  exists (n :: hs). reflexivity.
Qed.

Lemma valid_goal_record_ok (v : pyval) : valid_goal v = true -> record_ok v.
Proof.
  destruct v as [| | | | |r]; try discriminate. unfold valid_goal, field_is.
  intros H. repeat (apply andb_true_iff in H; destruct H as [H ?]).
  destruct (dict_get r "counter") as [[| |c| | |]|] eqn:Hc; try discriminate.
  destruct (dict_get r "history") as [[| | | |l|]|] eqn:Hh; try discriminate.
  destruct (int_list_map l) as [hs ->]; [assumption|].
  exists r, c, hs. auto.
Qed.

Lemma loaded_state_ok (d : file) :
  file_ok valid_registry d ->
  exists s0, load_data (init_state d) = (Ok tt, s0) /\ app_ok s0.
Proof.
  intros [->|(g & Hv & ->)].
  - rewrite load_absent. eexists; split; [reflexivity|].
    exists []. simpl. repeat split; auto; lia.
  - assert (Hl : Json.loads (Json.dumps (PDict [("goals", g)]))
                 = Ok (PDict [("goals", g)])).
    { apply loads_dumps. simpl. now rewrite (valid_registry_well_formed g Hv). }
    rewrite (load_object _ _ Hl). cbn [dict_get String.eqb Ascii.eqb Bool.eqb].
    eexists; split; [reflexivity|].
    destruct g as [| | | | |dd]; try discriminate.
    simpl in Hv. apply andb_true_iff in Hv. destruct Hv as [_ Hv].
    exists dd. destruct (truthy (PDict dd)); simpl; repeat split; auto; try lia;
      apply Forall_forall; intros kv Hin; apply valid_goal_record_ok;
      rewrite forallb_forall in Hv; apply Hv, Hin.
Qed.


End Safety.

(* ================================================================== *)
(** ** More of main.py *)
(* ================================================================== *)

(** *** handle_create_goal *)

Section CreateGoal.

Lemma lstrip_head (s : string) : head_space (lstrip s) = false.
Proof.
  induction s as [|c r IH]; simpl; [reflexivity|].
  destruct (is_space c) eqn:E; [exact IH|]. simpl. exact E.
Qed.

Lemma rstrip_last (s : string) : last_space (rstrip s) = false.
Proof.
  induction s as [|c r IH]; simpl; [reflexivity|].
  destruct (rstrip r) as [|c' r'] eqn:E.
  - destruct (is_space c) eqn:Ec; simpl; auto.
  - simpl in *. exact IH.
Qed.

Lemma rstrip_head (s : string) :
  head_space s = false -> head_space (rstrip s) = false.
Proof.
  destruct s as [|c r]; simpl; [reflexivity|]. intros Hc.
  destruct (rstrip r); [rewrite Hc|]; simpl; auto.
Qed.

Lemma strip_all_space (s : string) : all_space s = true -> strip s = "".
Proof.
  unfold strip. induction s as [|c r IH]; simpl; [reflexivity|].
  intros H. apply andb_true_iff in H. destruct H as [-> H]. auto.
Qed.



(** X2.  A submitted text made of whitespace only (or empty), or whose
    trimmed form holds an escape character, creates nothing: the handler
    returns with the registry and the file as they were, the state set to
    [menu] and the status line saying that the creation was cancelled. *)
Theorem create_blank_cancels (ev : event) (s : state) :
  textbox s = true ->
  all_space (ev_text ev) = true \/ has_char ESC (strip (ev_text ev)) = true ->
  handle_create_goal ev s
  = (Ok tt,
     set_current_state menu
       (set_status_fields (Some (Text "Goal creation cancelled"))
          (ev_clock ev) false s)).
Proof.
  intros Htb H. unfold handle_create_goal. run_monad. rewrite Htb. cbn [negb].
  destruct H as [H|H].
  - rewrite (strip_all_space _ H). reflexivity.
  - rewrite H. reflexivity.
Qed.

Lemma create_blank_cancels_witness :
  let s := mkState (PDict [("Smoking", new_goal "t0")]) None create_goal 0 true
                   None None 0 false CreateFrame Absent in
  let ev := mkEvent (-1) "    " "t1" 5 true 0 in
  handle_create_goal ev s
  = (Ok tt,
     set_current_state menu
       (set_status_fields (Some (Text "Goal creation cancelled")) 5 false s)).
Proof.
  intros s ev. apply (create_blank_cancels ev s); [reflexivity|].
  left. reflexivity.
Defined.

(** X3.  Whatever the submitted text, a name that the handler adds to the
    registry is the trimmed text, is not empty, holds no escape character
    and neither starts nor ends with a whitespace character; and the
    handler never removes a name. *)
Theorem created_name_is_trimmed (ev : event) (s s' : state) (d d' : dict)
    (r : res unit) :
  goals s = PDict d -> handle_create_goal ev s = (r, s') ->
  goals s' = PDict d' ->
  (forall k, dict_mem d k = true -> dict_mem d' k = true)
  /\ (forall k, dict_mem d k = false -> dict_mem d' k = true ->
        k = strip (ev_text ev) /\ k <> "" /\ has_char ESC k = false
        /\ head_space k = false /\ last_space k = false).
Proof.
  intros Hg Hrun Hg'. unfold handle_create_goal in Hrun. revert Hrun. run_monad.
  destruct (negb (textbox s)).
  { intros H; inversion H; subst s'. rewrite Hg in Hg'. inversion Hg'; subst d'.
    split; [auto|]. intros k Ka Kb. congruence. }
  destruct (has_char ESC (strip (ev_text ev))) eqn:Hesc.
  { cbn [orb]. intros H; inversion H; subst s'. cbn [goals set_current_state
      set_status_fields] in Hg'. rewrite Hg in Hg'. inversion Hg'; subst d'.
    split; [auto|]. intros k Ka Kb. congruence. }
  destruct (String.eqb (strip (ev_text ev)) "") eqn:Hemp.
  { cbn [orb]. intros H; inversion H; subst s'. cbn [goals set_current_state
      set_status_fields] in Hg'. rewrite Hg in Hg'. inversion Hg'; subst d'.
    split; [auto|]. intros k Ka Kb. congruence. }
  cbn [orb]. cbv beta iota. rewrite Hg. cbn [contains].
  destruct (dict_mem d (strip (ev_text ev))) eqn:Hdup.
  { intros H; inversion H; subst s'. cbn [goals set_status_fields] in Hg'.
    rewrite Hg in Hg'. inversion Hg'; subst d'.
    split; [auto|]. intros k Ka Kb. congruence. }
  cbn [setitem].
  assert (Hnew : forall k,
            dict_mem d k = false ->
            dict_mem (dict_set d (strip (ev_text ev)) (new_goal (ev_now ev))) k = true ->
            k = strip (ev_text ev) /\ k <> "" /\ has_char ESC k = false
            /\ head_space k = false /\ last_space k = false).
  { intros k Ka Kb.
    assert (k = strip (ev_text ev)) as ->.
    { destruct (String.eqb_spec k (strip (ev_text ev))) as [|Hne]; [assumption|].
      unfold dict_mem in *. rewrite dict_get_set_other in Kb by exact Hne.
      congruence. }
    repeat split; auto.
    - now apply String.eqb_neq.
    - unfold strip. apply rstrip_head, lstrip_head.
    - unfold strip. apply rstrip_last. }
  destruct (ev_disk_ok ev); intros H; inversion H; subst s';
    simpl in Hg'; inversion Hg'; subst d';
    (split; [intros k; apply dict_mem_set_other|exact Hnew]).
Qed.

Lemma created_name_is_trimmed_witness :
  let s := mkState (PDict [("Smoking", new_goal "t0")]) None create_goal 0 true
                   None None 0 false CreateFrame Absent in
  let ev := mkEvent (-1) "  Late snacks " "t1" 5 true 0 in
  let d := [("Smoking", new_goal "t0")] in
  let d' := [("Smoking", new_goal "t0"); ("Late snacks", new_goal "t1")] in
  (forall k, dict_mem d k = true -> dict_mem d' k = true)
  /\ (forall k, dict_mem d k = false -> dict_mem d' k = true ->
        k = strip "  Late snacks " /\ k <> "" /\ has_char ESC k = false
        /\ head_space k = false /\ last_space k = false).
Proof.
  intros s ev d d'.
  apply (created_name_is_trimmed ev s (snd (handle_create_goal ev s)) d d'
           (fst (handle_create_goal ev s)) eq_refl eq_refl eq_refl).
Defined.

End CreateGoal.

(** *** handle_delete_confirm *)

Section DeleteGoal.

Lemma dict_get_del_other (d : dict) (k k' : string) :
  k' <> k -> dict_get (dict_del d k) k' = dict_get d k'.
Proof.
  intros Hne. induction d as [|[k0 v0] d IH]; simpl; [reflexivity|].
  destruct (String.eqb_spec k k0) as [->|].
  - destruct (String.eqb_spec k' k0); congruence.
  - simpl. destruct (String.eqb k' k0); auto.
Qed.

Lemma not_in_keys_get (d : dict) (k : string) :
  existsb (String.eqb k) (keys d) = false -> dict_get d k = None.
Proof.
  induction d as [|[k0 v0] d IH]; simpl; [reflexivity|].
  destruct (String.eqb k k0); simpl; [discriminate|exact IH].
Qed.

Lemma not_in_keys_filter (d : dict) (k : string) :
  existsb (String.eqb k) (keys d) = false ->
  filter (fun k' => negb (String.eqb k' k)) (keys d) = keys d.
Proof.
  induction d as [|[k0 v0] d IH]; simpl; [reflexivity|].
  rewrite (String.eqb_sym k0 k).
  destruct (String.eqb k k0); simpl; [discriminate|].
  intros H. now rewrite IH.
Qed.

Lemma dict_del_nodup (d : dict) (k : string) :
  nodupb (keys d) = true ->
  dict_get (dict_del d k) k = None
  /\ keys (dict_del d k) = filter (fun k' => negb (String.eqb k' k)) (keys d).
Proof.
  induction d as [|[k0 v0] d IH]; simpl; [auto|].
  intros H. apply andb_true_iff in H. destruct H as [Hk Hnd].
  apply negb_true_iff in Hk. rewrite (String.eqb_sym k0 k).
  destruct (String.eqb_spec k k0) as [->|Hne]; simpl.
  - split; [now apply not_in_keys_get|now rewrite not_in_keys_filter].
  - destruct (IH Hnd) as [Hg Hks]. apply String.eqb_neq in Hne. rewrite Hne.
    split; [exact Hg|now rewrite Hks].
Qed.

(** X4.  In a registry without repeated names, a confirmed deletion
    removes the goal the prompt was opened for and nothing else: that
    name is gone, every other name keeps its record, the remaining names
    keep their order, the file holds the new registry and the state is
    [menu]. *)
Theorem delete_removes_only_named (ev : event) (s : state) (d : dict)
    (name : string) :
  key_in (ev_key ev) [ord "y"; ord "Y"] = true -> ev_disk_ok ev = true ->
  goals s = PDict d -> goal_to_delete s = Some name ->
  dict_mem d name = true -> nodupb (keys d) = true ->
  exists s' d',
    handle_delete_confirm ev s = (Ok tt, s')
    /\ goals s' = PDict d'
    /\ dict_mem d' name = false
    /\ (forall k, k <> name -> dict_get d' k = dict_get d k)
    /\ keys d' = filter (fun k => negb (String.eqb k name)) (keys d)
    /\ disk s' = Present (Json.dumps (PDict [("goals", PDict d')]))
    /\ current_state s' = menu.
Proof.
  intros Hk Hio Hg Hn Hm Hnd.
  unfold handle_delete_confirm. rewrite Hk. run_monad. rewrite Hio, Hg, Hn.
  cbn [delitem]. rewrite Hm. cbn [py_len].
  destruct (dict_del_nodup d name Hnd) as [Hgone Hkeys].
  exists (set_current_state menu
            (set_status_fields
               (Some (Fmt "Goal '" (PStr name) "' deleted successfully"))
               (ev_clock ev) false
               (set_selected_index
                  (Z.max 0 (Z.min (selected_index s)
                                  (Z.of_nat (List.length (dict_del d name)) - 1)))
                  (set_disk
                     (Present (Json.dumps (PDict [("goals", PDict (dict_del d name))])))
                     (set_goals (PDict (dict_del d name)) s))))),
         (dict_del d name).
  split; [reflexivity|]. repeat split; auto.
  - unfold dict_mem. now rewrite Hgone.
  - intros k Hne. now apply dict_get_del_other.
Qed.

Lemma delete_removes_only_named_witness :
  let d := [("A", new_goal "t0"); ("B", new_goal "t1"); ("C", new_goal "t2")] in
  let s := mkState (PDict d) None delete_confirm 1 true (Some "B") None 0 false
                   Blank Absent in
  exists s' d',
    handle_delete_confirm (key_event (ord "y")) s = (Ok tt, s')
    /\ goals s' = PDict d'
    /\ dict_mem d' "B" = false
    /\ (forall k, k <> "B" -> dict_get d' k = dict_get d k)
    /\ keys d' = filter (fun k => negb (String.eqb k "B")) (keys d)
    /\ disk s' = Present (Json.dumps (PDict [("goals", PDict d')]))
    /\ current_state s' = menu.
Proof.
  intros d s.
  apply (delete_removes_only_named (key_event (ord "y")) s d "B"); reflexivity.
Defined.



End DeleteGoal.

(** *** handle_menu_input and handle_goal_input: the other keys *)

Section OtherKeys.

Lemma menu_up_down_in_range_witness :
  let d := [("A", new_goal "t0"); ("B", new_goal "t1")] in
  let s := mkState (PDict d) None menu 1 true None None 0 false Blank Absent in
  let ev := key_event KEY_DOWN in
  exists s', handle_menu_input ev s = (Ok tt, s')
             /\ goals s' = goals s
             /\ selected_index s' =
                  (if ev_key ev =? KEY_UP then Z.max 0 (selected_index s - 1)
                   else Z.min (Z.of_nat (List.length d) - 1) (selected_index s + 1))
             /\ 0 <= selected_index s' < Z.of_nat (List.length d).
Proof.
  intros d s ev.
  apply (menu_up_down_in_range ev s d (or_intror eq_refl) eq_refl
           ltac:(discriminate) ltac:(simpl; lia)).
Defined.

(** A Python index between [-len] and [len - 1] selects the element at
    that index modulo the length. *)
Lemma list_index_mod {A} (l : list A) (i : Z) (default : A) :
  - Z.of_nat (List.length l) <= i < Z.of_nat (List.length l) ->
  list_index l i
  = Ok (nth (Z.to_nat (i mod Z.of_nat (List.length l))) l default).
Proof.
  intros H. unfold list_index.
  set (n := Z.of_nat (List.length l)) in *.
  assert (Hj : (if i <? 0 then i + n else i) = i mod n).
  { destruct (Z.ltb_spec i 0).
    - apply Z.mod_unique with (q := -1); lia.
    - symmetry. apply Z.mod_small. lia. }
  rewrite Hj.
  assert (Hr : 0 <= i mod n < n) by (apply Z.mod_pos_bound; lia).
  destruct (Z.ltb_spec (i mod n) 0); [lia|].
  destruct (Z.leb_spec n (i mod n)); [lia|]. simpl.
  destruct (nth_error l (Z.to_nat (i mod n))) eqn:E.
  - f_equal. symmetry. now apply nth_error_nth.
  - apply nth_error_None in E. lia.
Qed.

(** X7.  In the menu of a registry with at least one goal, Enter opens the
    view on the goal at the selected index and the delete key opens the
    prompt for that same goal; neither changes the registry or the file.
    The index is read as Python reads it: -1 is the last goal. *)
Theorem menu_enter_and_delete_select (ev : event) (s : state) (d : dict) :
  goals s = PDict d ->
  - Z.of_nat (List.length d) <= selected_index s < Z.of_nat (List.length d) ->
  let k := nth (Z.to_nat (selected_index s mod Z.of_nat (List.length d)))
               (keys d) "" in
  (key_in (ev_key ev) [10; 13] = true ->
   handle_menu_input ev s
   = (Ok tt,
      set_status_fields (Some (Fmt "Viewing goal: " (PStr k) "")) (ev_clock ev) false
        (set_current_state view_goal (set_current_goal (Some k) s))))
  /\ (key_in (ev_key ev) [ord "d"; ord "D"] = true ->
      handle_menu_input ev s
      = (Ok tt, set_current_state delete_confirm (set_goal_to_delete (Some k) s))).
Proof.
  intros Hg Hi k.
  assert (Hlen : List.length (keys d) = List.length d)
    by (unfold keys; apply length_map).
  assert (Hidx : list_index (keys d) (selected_index s) = Ok k).
  { subst k. rewrite <- Hlen. apply list_index_mod. rewrite Hlen. exact Hi. }
  assert (Ht : truthy (PDict d) = true).
  { destruct d; [simpl in Hi; lia|reflexivity]. }
  split; intros Hk.
  - assert (K : (ev_key ev =? -1) = false /\ (ev_key ev =? KEY_UP) = false
                /\ (ev_key ev =? KEY_DOWN) = false).
    { apply key_in_two in Hk. destruct Hk as [-> | ->]; repeat split. }
    destruct K as (K0 & K1 & K2).
    unfold handle_menu_input. rewrite K0, K1, K2, Hk. run_monad.
    rewrite Hg, Ht. cbn [andb py_keys]. state_simpl.
    rewrite ?Hg. cbn [py_keys]. rewrite Hidx. reflexivity.
  - assert (K : (ev_key ev =? -1) = false /\ (ev_key ev =? KEY_UP) = false
                /\ (ev_key ev =? KEY_DOWN) = false
                /\ key_in (ev_key ev) [10; 13] = false
                /\ key_in (ev_key ev) [ord "c"; ord "C"] = false).
    { apply key_in_two in Hk. destruct Hk as [-> | ->]; repeat split. }
    destruct K as (K0 & K1 & K2 & K3 & K4).
    unfold handle_menu_input. rewrite K0, K1, K2, K3, K4, Hk. run_monad.
    rewrite Hg, Ht. cbn [andb py_keys]. state_simpl.
    rewrite ?Hg. cbn [py_keys]. rewrite Hidx. reflexivity.
Qed.

Lemma menu_enter_and_delete_select_witness :
  let d := [("A", new_goal "t0"); ("B", new_goal "t1")] in
  let s := mkState (PDict d) None menu (-1) true None None 0 false Blank Absent in
  handle_menu_input (key_event 10) s
  = (Ok tt,
     set_status_fields (Some (Fmt "Viewing goal: " (PStr "B") "")) 0 false
       (set_current_state view_goal (set_current_goal (Some "B") s))).
Proof.
  intros d s.
  apply (proj1 (menu_enter_and_delete_select (key_event 10) s d eq_refl
                  ltac:(simpl; lia))).
  reflexivity.
Defined.

End OtherKeys.

(** *** Keys that nothing is bound to, and the quit key *)

Section StrayAndQuit.

Lemma key_in_cons (k a : Z) (l : list Z) :
  key_in k (a :: l) = (k =? a) || key_in k l.
Proof. reflexivity. Qed.

(** X8.  A key that the menu has no binding for changes nothing, whatever
    the state; in the goal view the same holds as soon as the goal on
    display is in the registry (the view looks it up before it looks at
    the key).  The value -1 that stands for no key is ignored as well. *)
Theorem stray_keys_are_ignored (ev : event) (s : state) :
  (key_in (ev_key ev) menu_keys = false -> handle_menu_input ev s = (Ok tt, s))
  /\ (key_in (ev_key ev) goal_keys = false ->
      forall data, getitem (goals s) (current_goal s) = Ok data ->
                   handle_goal_input ev s = (Ok tt, s)).
Proof.
  split.
  - intros H. unfold menu_keys in H. rewrite !key_in_cons in H.
    repeat (apply orb_false_iff in H; destruct H as [? H]).
    unfold handle_menu_input. run_monad.
    destruct (ev_key ev =? -1); [reflexivity|].
    rewrite !key_in_cons.
    repeat match goal with E : (_ =? _) = false |- _ => rewrite E; clear E end.
    cbn [orb andb key_in existsb]. reflexivity.
  - intros H data Hdata. unfold goal_keys in H. rewrite !key_in_cons in H.
    repeat (apply orb_false_iff in H; destruct H as [? H]).
    unfold handle_goal_input. run_monad.
    destruct (ev_key ev =? -1); [reflexivity|].
    rewrite Hdata. rewrite !key_in_cons.
    repeat match goal with E : (_ =? _) = false |- _ => rewrite E; clear E end.
    cbn [orb andb key_in existsb]. reflexivity.
Qed.

Lemma stray_keys_are_ignored_witness :
  let s := mkState (PDict [("A", new_goal "t0")]) (Some "A") view_goal 0 true
                   None None 0 false Blank Absent in
  handle_menu_input (key_event (ord "x")) s = (Ok tt, s)
  /\ handle_goal_input (key_event (ord "x")) s = (Ok tt, s).
Proof.
  intros s. split.
  - apply (proj1 (stray_keys_are_ignored (key_event (ord "x")) s)). reflexivity.
  - apply (proj2 (stray_keys_are_ignored (key_event (ord "x")) s) eq_refl
             (new_goal "t0")).
    reflexivity.
Defined.



End StrayAndQuit.

(** *** Whole sessions, and load_data *)

Section Sessions.


(** X11.  What [load_data] does with a file that holds one JSON document,
    as [json.dump] writes it from a value without repeated keys that is in
    the range of the codec.  An object gives its [goals] member, whatever
    that value is (nothing is checked), or the empty registry when it has
    none, and the state is [create_goal] exactly when that registry is
    falsy.  Any other document (an array, a string, a number, true, false
    or null) raises [AttributeError], and nothing has been changed. *)
Theorem load_data_outcomes (v : pyval) :
  well_formed v = true -> Json.in_range v = true ->
  let s0 := init_state (Present (Json.dumps v)) in
  load_data s0
  = match v with
    | PDict top =>
        let g := match dict_get top "goals" with
                 | Some x => x
                 | None => PDict []
                 end in
        (Ok tt,
         if truthy g then set_goals g s0
         else set_current_state create_goal (set_goals g s0))
    | _ => (Raise AttributeError, s0)
    end.
Proof.
  intros Hwf _ s0. subst s0. pose proof (loads_dumps v Hwf) as Hl.
  destruct v as [|b|n|x|l|top];
    try (unfold load_data; run_monad; cbn [disk init_state]; rewrite Hl;
         reflexivity).
  rewrite (load_object _ top Hl). cbv zeta.
  destruct (truthy match dict_get top "goals" with
                   | Some x => x
                   | None => PDict []
                   end); reflexivity.
Qed.

Lemma load_data_outcomes_witness :
  let v := PList [PDict [("goals", PDict [("A", new_goal "t0")])]] in
  load_data (init_state (Present (Json.dumps v)))
  = (Raise AttributeError, init_state (Present (Json.dumps v))).
Proof.
  intros v. apply (load_data_outcomes v); reflexivity.
Defined.

End Sessions.

(** *** What an iteration does to the registry and to the file *)

Ltac effect_simpl :=
  cbn [goals current_goal current_state selected_index textbox goal_to_delete
       status_message status_time is_error content_win disk
       set_goals set_current_goal set_current_state set_selected_index
       set_textbox set_goal_to_delete set_status_fields set_status_message
       set_content_win set_disk
       getitem setitem delitem contains py_len py_keys truthy exn_eqb fst snd].

(** The handler has returned, or raised something else than [OSError],
    without a change to the registry or the file. *)
Ltac effect_same :=
  unfold effect; cbn [fst snd];
  split; [left; reflexivity|split; [right; split; reflexivity|]].

Section Transitions.

Lemma handle_menu_input_effect (ev : event) (s : state) :
  app_ok s -> current_state s = menu -> effect ev s (handle_menu_input ev s).
Proof.
  intros (d & Hg & HF & Hi & _) Hcs.
  destruct s as [g cg cs si tb gd sm st ie cw dk].
  cbn [goals current_state selected_index] in *. subst g cs.
  assert (Hlen : List.length (keys d) = List.length d)
    by (unfold keys; apply length_map).
  unfold handle_menu_input. run_monad.
  destruct (ev_key ev =? -1) eqn:K0.
  { effect_same. exists d; simpl. repeat split; auto; try lia. }
  destruct (ev_key ev =? KEY_UP) eqn:K1.
  { effect_simpl. destruct d as [|kv d'].
    - cbn [keys map]. rewrite list_index_nil. cbn [exn_eqb]. effect_same.
      right; right. apply Z.eqb_eq in K1. auto.
    - remember (kv :: d') as d eqn:Ed.
      assert (Hpos : (0 < List.length d)%nat) by (subst d; simpl; lia).
      destruct (list_index_wrap (keys d) (Z.max 0 (si - 1)))
        as (a & -> & _); [rewrite Hlen; lia|].
      effect_same. exists d; simpl. repeat split; auto; lia. }
  destruct (ev_key ev =? KEY_DOWN) eqn:K2.
  { effect_simpl. destruct d as [|kv d'].
    - effect_same. exists []; simpl. repeat split; auto; simpl; lia.
    - remember (kv :: d') as d eqn:Ed.
      assert (Hpos : (0 < List.length d)%nat) by (subst d; simpl; lia).
      replace (match d with [] => false | _ :: _ => true end) with true
        by (subst d; reflexivity).
      effect_simpl.
      destruct (list_index_wrap (keys d)
                  (Z.min (Z.of_nat (List.length d) - 1) (si + 1)))
        as (a & -> & _); [rewrite Hlen; lia|].
      effect_same. exists d; simpl. repeat split; auto; lia. }
  effect_simpl.
  destruct (key_in (ev_key ev) [10; 13]
            && match d with [] => false | _ :: _ => true end) eqn:K3.
  { apply andb_true_iff in K3. destruct K3 as [_ K3].
    assert (Hpos : (0 < List.length d)%nat) by (destruct d; [discriminate|simpl; lia]).
    effect_simpl.
    destruct (list_index_wrap (keys d) si) as (a & -> & Ha);
      [rewrite Hlen; lia|].
    effect_same. exists d; simpl. repeat split; auto; try lia.
    exists a. split; [reflexivity|]. apply in_keys_mem, Ha. }
  destruct (key_in (ev_key ev) [ord "c"; ord "C"]) eqn:K4.
  { effect_same. exists d; simpl. repeat split; auto; try lia. }
  destruct (key_in (ev_key ev) [ord "d"; ord "D"]
            && match d with [] => false | _ :: _ => true end) eqn:K5.
  { apply andb_true_iff in K5. destruct K5 as [_ K5].
    assert (Hpos : (0 < List.length d)%nat) by (destruct d; [discriminate|simpl; lia]).
    effect_simpl.
    destruct (list_index_wrap (keys d) si) as (a & -> & Ha);
      [rewrite Hlen; lia|].
    effect_same. exists d; simpl. repeat split; auto; try lia.
    exists a. split; [reflexivity|]. apply in_keys_mem, Ha. }
  destruct (key_in (ev_key ev) [ord "q"; ord "Q"]) eqn:K6.
  { effect_simpl. destruct (ev_disk_ok ev) eqn:Hio; unfold effect; cbn [fst snd].
    - split; [left; reflexivity|]. split; [left; reflexivity|]. right; left. auto.
    - split; [left; reflexivity|]. split; [split; [exact Hio|reflexivity]|]. left. reflexivity. }
  destruct (key_in (ev_key ev) [ord "?"]) eqn:K7.
  { effect_same. exists d; simpl. repeat split; auto; try lia. }
  effect_same. exists d; simpl. repeat split; auto; try lia.
Qed.

Lemma handle_goal_input_effect (ev : event) (s : state) :
  app_ok s -> current_state s = view_goal -> effect ev s (handle_goal_input ev s).
Proof.
  intros Hok Hcs.
  destruct (app_ok_record s Hok Hcs)
    as (d & name & rec & c & hs & Hg & Hcg & Hn & Hcnt & Hh & HF & Hi).
  assert (Hm : dict_mem d name = true) by (unfold dict_mem; now rewrite Hn).
  destruct (ev_key ev =? -1) eqn:K0.
  { unfold handle_goal_input. rewrite K0. effect_same. exact Hok. }
  destruct (key_in (ev_key ev) [ord "i"; ord "I"]) eqn:K1.
  { rewrite (handle_increment ev s d rec name c _ K1 Hg Hcg Hn Hcnt Hh).
    assert (Hstep : registry_step (ev_now ev) d
                      (dict_set d name
                         (PDict (incremented rec c (map PInt hs) (ev_now ev)))))
      by (eapply step_increment; eauto).
    destruct (ev_disk_ok ev) eqn:Hio; unfold effect; cbn [fst snd].
    - split; [right; eexists _, _; split; [exact Hg|split; [reflexivity|exact Hstep]]|].
      split; [left; reflexivity|].
      eapply (app_ok_update s _ d name _ (c + 1) (hs ++ [c])%list Hg HF Hm Hi);
        try reflexivity; try assumption.
      + unfold incremented. now dict_simpl.
      + unfold incremented. dict_simpl. now rewrite map_app.
    - split; [right; eexists _, _; split; [exact Hg|split; [reflexivity|exact Hstep]]|].
      split; [split; [exact Hio|reflexivity]|]. left. reflexivity. }
  destruct (key_in (ev_key ev) [ord "u"; ord "U"]) eqn:K2.
  { destruct (list_last_cases hs) as [->|(hs' & x & ->)].
    - unfold handle_goal_input. rewrite K0, K1, K2. run_monad.
      rewrite Hg, Hcg. cbn [getitem]. rewrite Hn. cbv beta iota.
      cbn [getitem]. rewrite Hh. effect_same. exact Hok.
    - rewrite map_app in Hh. cbn [map] in Hh.
      rewrite (handle_undo ev s d rec name c _ _ K2 Hg Hcg Hn Hcnt Hh).
      assert (Hstep : registry_step (ev_now ev) d
                        (dict_set d name
                           (PDict (undone rec (PInt x) (map PInt hs') (ev_now ev)))))
        by (eapply step_undo; eauto).
      destruct (ev_disk_ok ev) eqn:Hio; unfold effect; cbn [fst snd].
      + split; [right; eexists _, _; split; [exact Hg|split; [reflexivity|exact Hstep]]|].
        split; [left; reflexivity|].
        eapply (app_ok_update s _ d name _ x hs' Hg HF Hm Hi);
          try reflexivity; try assumption.
        * unfold undone. now dict_simpl.
        * unfold undone. now dict_simpl.
      + split; [right; eexists _, _; split; [exact Hg|split; [reflexivity|exact Hstep]]|].
        split; [split; [exact Hio|reflexivity]|]. left. reflexivity. }
  unfold handle_goal_input. rewrite K0, K1, K2. run_monad.
  rewrite Hg, Hcg. cbn [getitem]. rewrite Hn. cbv beta iota.
  destruct (key_in (ev_key ev) [ord "m"; ord "M"]) eqn:K3.
  { effect_same. exists d. simpl. repeat split; auto; lia. }
  destruct (key_in (ev_key ev) [ord "q"; ord "Q"]) eqn:K4.
  { destruct (ev_disk_ok ev) eqn:Hio; unfold effect; cbn [fst snd].
    - split; [left; reflexivity|]. split; [left; reflexivity|]. right; left. auto.
    - split; [left; reflexivity|]. split; [split; [exact Hio|reflexivity]|]. left. reflexivity. }
  destruct (key_in (ev_key ev) [ord "?"]) eqn:K5.
  { effect_same. destruct Hok as (d0 & Hg0 & HF0 & Hi0 & Hst).
    exists d0. simpl. rewrite Hcs in Hst. rewrite Hcs. repeat split; auto; lia. }
  effect_same. exact Hok.
Qed.

Lemma handle_create_goal_effect (ev : event) (s : state) :
  app_ok s -> current_state s = create_goal -> textbox s = true ->
  effect ev s (handle_create_goal ev s).
Proof.
  intros (d & Hg & HF & Hi & _) Hcs Htb.
  unfold handle_create_goal. run_monad. rewrite Htb. cbn [negb].
  destruct (has_char ESC (strip (ev_text ev)) || String.eqb (strip (ev_text ev)) "").
  { effect_same. exists d. simpl. repeat split; auto; lia. }
  rewrite Hg. cbn [contains].
  destruct (dict_mem d (strip (ev_text ev))) eqn:Hm.
  { effect_same. exists d. simpl. rewrite Hcs. repeat split; auto; lia. }
  cbn [setitem].
  assert (Hstep : registry_step (ev_now ev) d
                    (dict_set d (strip (ev_text ev)) (new_goal (ev_now ev))))
    by (apply step_create, Hm).
  destruct (ev_disk_ok ev) eqn:Hio; unfold effect; cbn [fst snd].
  - split; [right; eexists _, _; split; [exact Hg|split; [reflexivity|exact Hstep]]|].
    split; [left; reflexivity|].
    exists (dict_set d (strip (ev_text ev)) (new_goal (ev_now ev))). simpl.
    repeat split; auto; try lia.
    + apply Forall_dict_set; [exact HF|].
      exists [("counter", PInt 0); ("history", PList []);
              ("created_at", PStr (ev_now ev)); ("last_updated", PStr (ev_now ev))],
             0, []. auto.
    + rewrite dict_set_length, Hm. lia.
    + eexists. split; [reflexivity|]. apply dict_set_mem.
  - split; [right; eexists _, _; split; [exact Hg|split; [reflexivity|exact Hstep]]|].
    split; [split; [exact Hio|reflexivity]|]. left. reflexivity.
Qed.

Lemma handle_delete_confirm_effect (ev : event) (s : state) :
  app_ok s -> current_state s = delete_confirm ->
  effect ev s (handle_delete_confirm ev s).
Proof.
  intros (d & Hg & HF & Hi & Hst) Hcs. rewrite Hcs in Hst.
  destruct Hst as (name & Hgd & Hm).
  unfold handle_delete_confirm. run_monad.
  destruct (key_in (ev_key ev) [ord "y"; ord "Y"]).
  - rewrite Hg, Hgd. cbn [delitem]. rewrite Hm.
    assert (Hstep : registry_step (ev_now ev) d (dict_del d name))
      by (apply step_delete, Hm).
    destruct (ev_disk_ok ev) eqn:Hio; unfold effect; cbn [fst snd].
    + split; [right; eexists _, _; split; [exact Hg|split; [reflexivity|exact Hstep]]|].
      split; [left; reflexivity|].
      exists (dict_del d name). simpl. pose proof (dict_del_length d name).
      repeat split; auto; try lia. apply Forall_dict_del, HF.
    + split; [right; eexists _, _; split; [exact Hg|split; [reflexivity|exact Hstep]]|].
      split; [split; [exact Hio|reflexivity]|]. left. reflexivity.
  - destruct (key_in (ev_key ev) [ord "n"; ord "N"]);
      effect_same; exists d; simpl; repeat split; auto; lia.
Qed.

Lemma effect_frame {A} (ev : event) (s s' : state) (r : res A * state) :
  goals s' = goals s -> disk s' = disk s -> current_state s' = current_state s ->
  effect ev s' r -> effect ev s r.
Proof. unfold effect. intros -> -> ->. auto. Qed.

Lemma effect_bind {A} (ev : event) (s sd : state) (h : M unit) (a : A) :
  effect ev s (h sd) -> effect ev s (bind h (fun _ => ret a) sd).
Proof.
  unfold bind, ret. destruct (h sd) as [[u|e] s']; auto.
Qed.

Lemma handler_effect (ev : event) (s : state) :
  app_ok s -> (current_state s = create_goal -> textbox s = true) ->
  effect ev s
    (match current_state s with
     | menu => handle_menu_input ev
     | view_goal => handle_goal_input ev
     | create_goal => handle_create_goal ev
     | delete_confirm => handle_delete_confirm ev
     end s).
Proof.
  intros Hok Htb. destruct (current_state s) eqn:Hcs.
  - now apply handle_menu_input_effect.
  - now apply handle_goal_input_effect.
  - apply handle_create_goal_effect; auto.
  - now apply handle_delete_confirm_effect.
Qed.

Lemma run_iteration_effect (ev : event) (last : option ui_state) (s : state) :
  app_ok s -> last <> Some create_goal ->
  effect ev s (run_iteration ev last s).
Proof.
  intros Hok Hlast. rewrite run_iteration_dispatch. cbv zeta.
  set (sa := if message_truthy (status_message s)
                && (ev_clock ev - status_time s >? 3)
             then set_status_message None s else s).
  assert (Hg : goals sa = goals s) by (subst sa; destruct (_ && _); reflexivity).
  assert (Hdk : disk sa = disk s) by (subst sa; destruct (_ && _); reflexivity).
  assert (Hcs : current_state sa = current_state s)
    by (subst sa; destruct (_ && _); reflexivity).
  assert (Hoka : app_ok sa).
  { eapply app_ok_frame; [| | | | |exact Hok]; auto;
      subst sa; destruct (_ && _); reflexivity. }
  apply (effect_frame ev s sa _ Hg Hdk Hcs).
  destruct (last_state_differs (current_state sa) last
            || ui_state_eqb (current_state sa) menu) eqn:Hb.
  - destruct (draw_safe sa Hoka) as (f & tb & Hd & Htb). rewrite Hd.
    apply effect_bind.
    apply (effect_frame ev sa (set_content_win f (set_textbox tb sa)));
      try reflexivity.
    apply (handler_effect ev (set_content_win f (set_textbox tb sa)));
      [eapply app_ok_frame; [| | | | |exact Hoka]; reflexivity|exact Htb].
  - apply effect_bind. apply (handler_effect ev sa Hoka).
    intros Hc. rewrite Hc in Hb. exfalso.
    apply orb_false_iff in Hb. destruct Hb as [Hb _].
    destruct last as [[]|]; simpl in Hb; try discriminate. now apply Hlast.
Qed.

(** The loop never remembers [create_goal] as the state it drew last. *)
Lemma run_iteration_last (ev : event) (last l' : option ui_state) (s s' : state) :
  last <> Some create_goal -> run_iteration ev last s = (Ok l', s') ->
  l' <> Some create_goal.
Proof.
  intros Hlast. rewrite run_iteration_dispatch. cbv zeta.
  set (sa := if message_truthy (status_message s)
                && (ev_clock ev - status_time s >? 3)
             then set_status_message None s else s).
  unfold bind, ret.
  destruct (last_state_differs (current_state sa) last
            || ui_state_eqb (current_state sa) menu).
  - destruct (match current_state sa with
              | menu => draw_menu | view_goal => draw_goal
              | create_goal => draw_create_goal
              | delete_confirm => draw_delete_confirm
              end sa) as [[u|e] sd]; [|discriminate].
    destruct (match current_state sa with
              | menu => handle_menu_input ev | view_goal => handle_goal_input ev
              | create_goal => handle_create_goal ev
              | delete_confirm => handle_delete_confirm ev
              end sd) as [[u'|e] s1]; [|discriminate].
    intros H; inversion H. destruct (current_state sa); discriminate.
  - destruct (match current_state sa with
              | menu => handle_menu_input ev | view_goal => handle_goal_input ev
              | create_goal => handle_create_goal ev
              | delete_confirm => handle_delete_confirm ev
              end sa) as [[u'|e] s1]; [|discriminate].
    intros H; inversion H. destruct (current_state sa); auto; discriminate.
Qed.

End Transitions.

(** *** Invariants of a session *)

Section Invariants.





(** The registry that [load_data] reads back from a file written from a
    valid registry is that registry. *)
Lemma loaded_registry (g : pyval) :
  valid_registry g = true ->
  exists s0,
    load_data (init_state (Present (Json.dumps (PDict [("goals", g)]))))
    = (Ok tt, s0)
    /\ goals s0 = g /\ written s0 /\ app_ok s0.
Proof.
  intros Hv.
  destruct (loaded_state_ok (Present (Json.dumps (PDict [("goals", g)]))))
    as (s0 & Hl & Hok); [right; eauto|].
  exists s0. split; [exact Hl|].
  assert (Hloads : Json.loads (Json.dumps (PDict [("goals", g)]))
                   = Ok (PDict [("goals", g)])).
  { apply loads_dumps. simpl. now rewrite (valid_registry_well_formed g Hv). }
  rewrite (load_object _ _ Hloads) in Hl.
  cbn [dict_get String.eqb Ascii.eqb Bool.eqb] in Hl.
  assert (Hs0 : goals s0 = g
                /\ disk s0 = Present (Json.dumps (PDict [("goals", g)]))).
  { destruct (truthy g); inversion Hl; split; reflexivity. }
  destruct Hs0 as [Hg Hd]. unfold written. rewrite Hg. auto.
Qed.



Lemma Forall_dict_get (P : pyval -> Prop) (d : dict) (k : string) (v : pyval) :
  Forall (fun kv => P (snd kv)) d -> dict_get d k = Some v -> P v.
Proof.
  intros HF Hg. rewrite Forall_forall in HF.
  exact (HF (k, v) (dict_get_In d k v Hg)).
Qed.

Lemma registry_step_counted (now : string) (d d' : dict) :
  registry_step now d d' ->
  Forall (fun kv => counted (snd kv)) d ->
  Forall (fun kv => counted (snd kv)) d'.
Proof.
  intros Hstep HF. destruct Hstep as [name Hm|name Hm|name rec c h Hn Hc Hh
                                      |name rec x h Hn Hh].
  - apply Forall_dict_set; [exact HF|].
    exists [("counter", PInt 0); ("history", PList []);
            ("created_at", PStr now); ("last_updated", PStr now)], 0%nat.
    repeat split.
  - apply Forall_dict_del, HF.
  - apply Forall_dict_set; [exact HF|].
    destruct (Forall_dict_get _ d name _ HF Hn) as (rec0 & c0 & E & Hc0 & Hh0).
    inversion E; subst rec0. rewrite Hc in Hc0. rewrite Hh in Hh0.
    inversion Hc0; subst c. inversion Hh0; subst h.
    exists (incremented rec (Z.of_nat c0) (pushed 0 c0) now), (S c0).
    unfold incremented. dict_simpl. repeat split.
    + do 2 f_equal. lia.
    + now rewrite pushed_S.
  - apply Forall_dict_set; [exact HF|].
    destruct (Forall_dict_get _ d name _ HF Hn) as (rec0 & c0 & E & Hc0 & Hh0).
    inversion E; subst rec0. rewrite Hh in Hh0. inversion Hh0 as [Hl].
    destruct c0 as [|m].
    + destruct h; discriminate.
    + rewrite pushed_S in Hl. apply app_inj_tail in Hl. destruct Hl as [-> ->].
      exists (undone rec (PInt (0 + Z.of_nat m)) (pushed 0 m) now), m.
      unfold undone. dict_simpl. repeat split.
Qed.

Lemma run_from_counted (evs : list event) :
  forall last s r s',
    app_ok s -> last <> Some create_goal -> all_counted (goals s) ->
    run_from evs last s = (r, s') -> all_counted (goals s').
Proof.
  assert (Hkeep : forall ev s (r : res (option ui_state) * state),
            all_counted (goals s) -> effect ev s r -> all_counted (goals (snd r))).
  { intros ev s r (d0 & Hg0 & HF0) ([Hg|(d & d' & Ha & Hb & Hstep)] & _).
    - rewrite Hg. exists d0. auto.
    - exists d'. split; [exact Hb|]. rewrite Hg0 in Ha. inversion Ha; subst d0.
      exact (registry_step_counted _ d d' Hstep HF0). }
  induction evs as [|ev evs IH]; intros last s r s' Hok Hlast Hc Hrun.
  - inversion Hrun; subst. exact Hc.
  - cbn [run_from] in Hrun. unfold bind at 1 in Hrun.
    pose proof (run_iteration_effect ev last s Hok Hlast) as He.
    pose proof (Hkeep ev s _ Hc He) as Hc1.
    destruct (run_iteration ev last s) as [[l1|e] s1] eqn:Hit.
    + destruct He as (_ & _ & Hok1). cbn [fst snd] in Hok1, Hc1.
      exact (IH l1 s1 r s' Hok1 (run_iteration_last ev last l1 s s1 Hlast Hit)
                Hc1 Hrun).
    + inversion Hrun; subst r s'. exact Hc1.
Qed.

(** X14.  In a session that starts without a file, or from a file written
    from a valid registry in which this holds, every goal of the registry
    has, after any keys and texts and however the session ends, a counter
    that is the number of entries of its history, the history being
    0, 1, ..., counter - 1.  So no counter is ever negative. *)
Theorem counter_counts_history (d : file) (evs : list event) (r : res unit)
    (s' : state) :
  d = Absent
  \/ (exists g, valid_registry g = true /\ all_counted g
                /\ d = Present (Json.dumps (PDict [("goals", g)]))) ->
  ImpulseControlApp evs (init_state d) = (r, s') ->
  all_counted (goals s').
Proof.
  intros Hd Hrun. unfold ImpulseControlApp, bind, run in Hrun.
  destruct Hd as [->|(g & Hv & Hc & ->)].
  - rewrite load_absent in Hrun.
    apply (run_from_counted evs None
             (set_current_state create_goal (init_state Absent)) r s');
      try exact Hrun.
    + exists []. simpl. repeat split; auto; lia.
    + discriminate.
    + exists []. split; [reflexivity|constructor].
  - destruct (loaded_registry g Hv) as (s0 & Hl & Hg & Hw & Hok).
    rewrite Hl in Hrun.
    apply (run_from_counted evs None s0 r s'); try exact Hrun; auto.
    + discriminate.
    + now rewrite Hg.
Qed.

Lemma counter_counts_history_witness :
  let evs := [text_event "Smoking"; key_event (ord "i"); key_event (ord "i");
              key_event (ord "u"); key_event (ord "q")] in
  all_counted (goals (snd (ImpulseControlApp evs (init_state Absent)))).
Proof.
  intros evs.
  apply (counter_counts_history Absent evs
           (fst (ImpulseControlApp evs (init_state Absent)))).
  - left. reflexivity.
  - apply surjective_pairing.
Defined.

End Invariants.

(** *** The goal view changes one record only *)

Section OneRecord.

Lemma keys_dict_set_mem (d : dict) (k : string) (v : pyval) :
  dict_mem d k = true -> keys (dict_set d k v) = keys d.
Proof.
  unfold dict_mem. induction d as [|[k0 v0] d IH]; simpl; [discriminate|].
  destruct (String.eqb_spec k k0) as [->|]; simpl; [reflexivity|].
  intros H. now rewrite IH.
Qed.

(** X15.  The increment and undo keys change nothing but three fields of
    the record on display: in the registry the names and their order are
    the same, every other goal has the record it had, and in the record on
    display every field other than [counter], [history] and [last_updated]
    (so [created_at]) has the value it had.  The goal on display, the
    state and the selection of the menu are the same.  This holds whether
    or not the write that follows succeeds. *)
Theorem goal_keys_touch_one_record (ev : event) (s s' : state) (r : res unit)
    (d rec : dict) (name : string) (c : Z) (h : list pyval) :
  key_in (ev_key ev) [ord "i"; ord "I"; ord "u"; ord "U"] = true ->
  goals s = PDict d -> current_goal s = Some name ->
  dict_get d name = Some (PDict rec) ->
  dict_get rec "counter" = Some (PInt c) ->
  dict_get rec "history" = Some (PList h) ->
  handle_goal_input ev s = (r, s') ->
  exists d' rec',
    goals s' = PDict d' /\ keys d' = keys d
    /\ (forall k, k <> name -> dict_get d' k = dict_get d k)
    /\ dict_get d' name = Some (PDict rec')
    /\ (forall f, f <> "counter" -> f <> "history" -> f <> "last_updated" ->
                  dict_get rec' f = dict_get rec f)
    /\ current_goal s' = Some name /\ current_state s' = current_state s
    /\ selected_index s' = selected_index s.
Proof.
  intros Hk Hg Hcg Hn Hcnt Hh Hrun.
  assert (Hm : dict_mem d name = true) by (unfold dict_mem; now rewrite Hn).
  assert (Hset : forall rec1,
            (forall f, f <> "counter" -> f <> "history" -> f <> "last_updated" ->
                       dict_get rec1 f = dict_get rec f) ->
            forall s1, goals s1 = PDict (dict_set d name (PDict rec1)) ->
              current_goal s1 = Some name -> current_state s1 = current_state s ->
              selected_index s1 = selected_index s ->
            exists d' rec',
              goals s1 = PDict d' /\ keys d' = keys d
              /\ (forall k, k <> name -> dict_get d' k = dict_get d k)
              /\ dict_get d' name = Some (PDict rec')
              /\ (forall f, f <> "counter" -> f <> "history" ->
                            f <> "last_updated" ->
                            dict_get rec' f = dict_get rec f)
              /\ current_goal s1 = Some name
              /\ current_state s1 = current_state s
              /\ selected_index s1 = selected_index s).
  { intros rec1 Hf s1 Hg1 Hc1 Hs1 Hi1.
    exists (dict_set d name (PDict rec1)), rec1.
    repeat split; auto.
    - now apply keys_dict_set_mem.
    - intros k Hne. now apply dict_get_set_other.
    - apply dict_get_set_same. }
  assert (Hkeys : key_in (ev_key ev) [ord "i"; ord "I"] = true
                  \/ (key_in (ev_key ev) [ord "i"; ord "I"] = false
                      /\ key_in (ev_key ev) [ord "u"; ord "U"] = true)).
  { unfold key_in in *. cbn [existsb] in *.
    destruct (ev_key ev =? ord "i"); [now left|].
    destruct (ev_key ev =? ord "I"); [now left|]. right. auto. }
  destruct Hkeys as [K1|[K1 K2]].
  - rewrite (handle_increment ev s d rec name c h K1 Hg Hcg Hn Hcnt Hh) in Hrun.
    apply (Hset (incremented rec c h (ev_now ev))).
    + intros f F1 F2 F3. unfold incremented.
      now rewrite !dict_get_set_other by assumption.
    + destruct (ev_disk_ok ev); inversion Hrun; reflexivity.
    + destruct (ev_disk_ok ev); inversion Hrun; exact Hcg.
    + destruct (ev_disk_ok ev); inversion Hrun; reflexivity.
    + destruct (ev_disk_ok ev); inversion Hrun; reflexivity.
  - destruct (list_last_cases h) as [->|(h' & x & ->)].
    + assert (K0 : (ev_key ev =? -1) = false).
      { apply key_in_two in K2. destruct K2 as [-> | ->]; reflexivity. }
      unfold handle_goal_input in Hrun. rewrite K0, K1, K2 in Hrun.
      revert Hrun. run_monad. rewrite Hg, Hcg. cbn [getitem]. rewrite Hn.
      cbv beta iota. cbn [getitem]. rewrite Hh. cbn [truthy].
      intros Hrun; inversion Hrun; subst s'.
      exists d, rec. repeat split; auto.
    + rewrite (handle_undo ev s d rec name c h' x K2 Hg Hcg Hn Hcnt Hh) in Hrun.
      apply (Hset (undone rec x h' (ev_now ev))).
      * intros f F1 F2 F3. unfold undone.
        now rewrite !dict_get_set_other by assumption.
      * destruct (ev_disk_ok ev); inversion Hrun; reflexivity.
      * destruct (ev_disk_ok ev); inversion Hrun; exact Hcg.
      * destruct (ev_disk_ok ev); inversion Hrun; reflexivity.
      * destruct (ev_disk_ok ev); inversion Hrun; reflexivity.
Qed.

Lemma goal_keys_touch_one_record_witness :
  let d := [("A", new_goal "t0"); ("B", new_goal "t1")] in
  let s := mkState (PDict d) (Some "B") view_goal 0 true None None 0 false
                   Blank Absent in
  let ev := key_event (ord "i") in
  exists d' rec',
    goals (snd (handle_goal_input ev s)) = PDict d' /\ keys d' = keys d
    /\ (forall k, k <> "B" -> dict_get d' k = dict_get d k)
    /\ dict_get d' "B" = Some (PDict rec')
    /\ (forall f, f <> "counter" -> f <> "history" -> f <> "last_updated" ->
                  dict_get rec' f
                  = dict_get [("counter", PInt 0); ("history", PList []);
                              ("created_at", PStr "t1");
                              ("last_updated", PStr "t1")] f)
    /\ current_goal (snd (handle_goal_input ev s)) = Some "B"
    /\ current_state (snd (handle_goal_input ev s)) = current_state s
    /\ selected_index (snd (handle_goal_input ev s)) = selected_index s.
Proof.
  intros d s ev.
  apply (goal_keys_touch_one_record ev s (snd (handle_goal_input ev s))
           (fst (handle_goal_input ev s)) d
           [("counter", PInt 0); ("history", PList []);
            ("created_at", PStr "t1"); ("last_updated", PStr "t1")]
           "B" 0 []); reflexivity.
Defined.

End OneRecord.

(** *** Iterations without a key *)

Section Idle.



End Idle.

(** *** draw_menu *)

Section DrawMenu.




End DrawMenu.

(** *** Starting again from the file that a session leaves *)

Section Restart.














End Restart.

(** *** Keys that only browse *)



Section Browsing.











End Browsing.
